(** * Miss Bloom application form: navigation, validation and derived fields

    A shallow embedding of the wizard logic of
    [src/components/ApplicationForm.tsx] (the participant form and, in the
    same file, the director form's inline word counter):

    - the form record is the JavaScript object held by [useState]; it is a
      finite map from field names to JavaScript values, and
      [{ ...prev, [field]: v }] is a map insertion;
    - strings are sequences of code units below 256 ([string]);
    - each event handler is a function on the component state; the toasts,
      the timer and the parent callback it triggers are returned as a list
      of [effect]s;
    - the helpers imported from [@/utils/formUtils] live in another module
      of the repository: the component is parameterised by them (a
      [Section]), and module [FormUtils] gives an instance that follows the
      specification. *)

From Stdlib Require Import ZArith Ascii String List Bool Lia.
From stdpp Require Import base decidable option list strings gmap fin_maps pretty.
Import ListNotations.

Open Scope string_scope.

(** ** JavaScript values and strings *)

(** A [File] picked in a file input: opaque content with a display name. *)
Record File := { file_name : string; file_blob : N }.

Inductive value :=
  | VStr (s : string)
  | VBool (b : bool)
  | VFile (f : File)
  | VNull.

#[global] Instance File_eq_dec : EqDecision File.
Proof. solve_decision. Defined.

#[global] Instance value_eq_dec : EqDecision value.
Proof. solve_decision. Defined.

(** A JavaScript number as far as ages need it: an integer or [NaN]. *)
Inductive number :=
  | Num (z : Z)
  | NaN.

Definition Number_toString (n : number) : string :=
  match n with
  | Num z => pretty z
  | NaN => "NaN"
  end.

(** [Boolean(v)] for a property read, [None] being [undefined]. *)
Definition ToBoolean (v : option value) : bool :=
  match v with
  | Some (VStr s) => negb (String.eqb s "")
  | Some (VBool b) => b
  | Some (VFile _) => true
  | Some VNull => false
  | None => false
  end.

(** The string an array element contributes to [join]. *)
Definition ToString (v : option value) : string :=
  match v with
  | Some (VStr s) => s
  | Some (VBool true) => "true"
  | Some (VBool false) => "false"
  | Some (VFile _) => "[object File]"
  | Some VNull => ""
  | None => ""
  end.

(** [parts.join(sep)] on strings. *)
Fixpoint join (sep : string) (parts : list string) : string :=
  match parts with
  | [] => ""
  | x :: rest =>
      match rest with
      | [] => x
      | _ :: _ => x ++ sep ++ join sep rest
      end
  end.

(** The characters matched by [\s] and stripped by [trim], among the code
    units below 256: tab, line feed, vertical tab, form feed, carriage
    return, space and no-break space. *)
Definition is_space (c : ascii) : bool :=
  let n := N_of_ascii c in
  ((9 <=? n) && (n <=? 13) || (n =? 32) || (n =? 160))%N.

Fixpoint trimStart (s : string) : string :=
  match s with
  | EmptyString => EmptyString
  | String c s' => if is_space c then trimStart s' else s
  end.

Fixpoint trimEnd (s : string) : string :=
  match s with
  | EmptyString => EmptyString
  | String c s' =>
      match trimEnd s' with
      | EmptyString => if is_space c then EmptyString else String c EmptyString
      | r => String c r
      end
  end.

Definition trim (s : string) : string := trimEnd (trimStart s).

(** [s.split(/\s+/)]: every maximal run of white space is one separator; a
    separator at either end leaves an empty piece there, and the empty
    string splits into one empty piece.  [cur] is the piece being read and
    [in_sep] tells that the previous character belonged to a separator. *)
Fixpoint split_ws_from (in_sep : bool) (cur : string) (s : string) : list string :=
  match s with
  | EmptyString => [cur]
  | String c s' =>
      if is_space c then
        if in_sep then split_ws_from true cur s'
        else cur :: split_ws_from true EmptyString s'
      else split_ws_from false (cur ++ String c EmptyString) s'
  end.

Definition split_ws (s : string) : list string := split_ws_from false EmptyString s.

Definition nonempty (s : string) : bool := negb (String.eqb s "").

(** The word counter written inline in the director form,
    [field.value ? field.value.trim().split(/\s+/).filter(Boolean).length : 0]. *)
Definition inlineWordCount (value : string) : nat :=
  if nonempty value then length (List.filter nonempty (split_ws (trim value)))
  else 0.

(** ** Form errors and sections *)

Record FormError := { field : string; message : string }.

#[global] Instance FormError_eq_dec : EqDecision FormError.
Proof. solve_decision. Defined.

Record FormSection := { id : string; title : string; badge : string }.

Definition formSections : list FormSection :=
  [ {| id := "eligibility"; title := "Eligibility"; badge := "1" |};
    {| id := "contact"; title := "Contact Information"; badge := "2" |};
    {| id := "personal"; title := "Personal Details"; badge := "3" |};
    {| id := "background"; title := "Background & Experience"; badge := "4" |};
    {| id := "motivation"; title := "Motivation & Goals"; badge := "5" |};
    {| id := "business"; title := "Business Plan"; badge := "6" |};
    {| id := "photos"; title := "Photos"; badge := "7" |};
    {| id := "terms"; title := "Terms & Conditions"; badge := "8" |};
    {| id := "profile"; title := "Personal Profile"; badge := "9" |};
    {| id := "countryInfo"; title := "Country Information"; badge := "10" |};
    {| id := "review"; title := "Review & Submit"; badge := "11" |} ].

(** [xs.findIndex(p)], with [-1] when no element satisfies [p]. *)
Fixpoint findIndex_from {A : Type} (p : A -> bool) (i : Z) (xs : list A) : Z :=
  match xs with
  | [] => (-1)%Z
  | x :: xs' => if p x then i else findIndex_from p (i + 1)%Z xs'
  end.

Definition findIndex {A : Type} (p : A -> bool) (xs : list A) : Z :=
  findIndex_from p 0%Z xs.

(** [xs[i]] for an integer index, [None] being [undefined]. *)
Definition at_index {A : Type} (xs : list A) (i : Z) : option A :=
  if (i <? 0)%Z then None else xs !! Z.to_nat i.

(** ** The helpers of [@/utils/formUtils] *)

Module FormUtils.

(** Modelled from the spec: [countWords] of [utils/formUtils], whose
    source is missing.  The word count is the number of maximal sequences
    of non-white-space characters; white space at the ends and runs of
    white space in between contribute nothing.  [in_word] tells that the
    previous character belonged to a word. *)
Fixpoint count_runs (in_word : bool) (s : string) : nat :=
  match s with
  | EmptyString => 0
  | String c s' =>
      if is_space c then count_runs false s'
      else (if in_word then 0 else 1) + count_runs true s'
  end.

Definition countWords (text : string) : nat := count_runs false text.

(** A calendar date: year, month (1 to 12) and day of the month. *)
Record Date := { year : Z; month : Z; day : Z }.

Definition digit (c : ascii) : option Z :=
  let n := Z.of_N (N_of_ascii c) in
  if ((48 <=? n) && (n <=? 57))%Z then Some (n - 48)%Z else None.

(** Modelled from the spec: the birth date carried by the value of a date
    input, [YYYY-MM-DD]; anything else is no date. *)
Definition parseDate (s : string) : option Date :=
  match s with
  | String y1 (String y2 (String y3 (String y4 (String "-"
      (String m1 (String m2 (String "-" (String d1 (String d2 EmptyString))))))))) =>
      match digit y1, digit y2, digit y3, digit y4,
            digit m1, digit m2, digit d1, digit d2 with
      | Some a, Some b, Some c, Some d, Some e, Some f, Some g, Some h =>
          let y := (1000 * a + 100 * b + 10 * c + d)%Z in
          let m := (10 * e + f)%Z in
          let dd := (10 * g + h)%Z in
          if ((1 <=? m) && (m <=? 12) && (1 <=? dd) && (dd <=? 31))%Z
          then Some {| year := y; month := m; day := dd |}
          else None
      | _, _, _, _, _, _, _, _ => None
      end
  | _ => None
  end.

(** [(today.month, today.day) < (d.month, d.day)] *)
Definition before_birthday (today d : Date) : bool :=
  ((month today <? month d)
   || ((month today =? month d) && (day today <? day d)))%Z.

(** Modelled from the spec: the age at [today] of someone born on [d] is
    [today.year - d.year], less one when the birth month and day have not
    yet occurred this year. *)
Definition ageOn (today d : Date) : Z :=
  (year today - year d - (if before_birthday today d then 1 else 0))%Z.

(** Modelled from the spec: [calculateAge] of [utils/formUtils], whose
    source is missing; the current date it reads is the argument [today]. *)
Definition calculateAge (today : Date) (dateOfBirth : string) : number :=
  match parseDate dateOfBirth with
  | Some d => Num (ageOn today d)
  | None => NaN
  end.

(** Modelled from the spec: [isAgeInRange] of [utils/formUtils], whose
    source is missing; the age must lie in [[minAge, maxAge]], both ends
    included. *)
Definition isAgeInRange (today : Date) (dateOfBirth : string) (minAge maxAge : Z) : bool :=
  match calculateAge today dateOfBirth with
  | Num age => ((minAge <=? age) && (age <=? maxAge))%Z
  | NaN => false
  end.


(** Modelled from the spec: the field rules of [utils/formUtils], whose
    source is missing.  A rule names the field it checks and carries the
    message of its failure. *)
Inductive FieldRule :=
  | RequiredText (f : string) (msg : string)
  | EmailFormat (f : string) (msg : string)
  | WordCeiling (f : string) (limit : nat) (msg : string)
  | MustBeTrue (f : string) (msg : string)
  | AssetPresent (f : string) (msg : string).

(** The text held by a field, empty when the field holds none. *)
Definition text_of (record : gmap string value) (f : string) : string :=
  match record !! f with
  | Some (VStr s) => s
  | _ => ""
  end.

Fixpoint no_space_or_at (s : string) : bool :=
  match s with
  | EmptyString => true
  | String c s' => negb (is_space c) && negb (Ascii.eqb c "@") && no_space_or_at s'
  end.

(** A dot with at least one character before it and one after it. *)
Fixpoint has_inner_dot (first : bool) (s : string) : bool :=
  match s with
  | EmptyString => false
  | String c s' =>
      (negb first && Ascii.eqb c "." && nonempty s') || has_inner_dot false s'
  end.

(** The part before the first [@] and the part after it. *)
Fixpoint split_at_sign (s : string) : option (string * string) :=
  match s with
  | EmptyString => None
  | String c s' =>
      if Ascii.eqb c "@" then Some (EmptyString, s')
      else match split_at_sign s' with
           | Some (l, d) => Some (String c l, d)
           | None => None
           end
  end.

(** Modelled from the spec: the standard address pattern,
    [local@domain.tld] without white space or a second [@]. *)
Definition isValidEmail (s : string) : bool :=
  match split_at_sign s with
  | Some (l, d) =>
      nonempty l && no_space_or_at l && no_space_or_at d && has_inner_dot true d
  | None => false
  end.

(** The word limit of the long texts. *)
Definition maxWords : nat := 500.

Definition check (record : gmap string value) (rule : FieldRule) : option FormError :=
  match rule with
  | RequiredText f msg =>
      if nonempty (trim (text_of record f)) then None
      else Some {| field := f; message := msg |}
  | EmailFormat f msg =>
      if nonempty (trim (text_of record f)) && negb (isValidEmail (text_of record f))
      then Some {| field := f; message := msg |}
      else None
  | WordCeiling f limit msg =>
      if (countWords (text_of record f) <=? limit)%nat then None
      else Some {| field := f; message := msg |}
  | MustBeTrue f msg =>
      match record !! f with
      | Some (VBool true) => None
      | _ => Some {| field := f; message := msg |}
      end
  | AssetPresent f msg =>
      match record !! f with
      | Some (VFile _) => None
      | _ => Some {| field := f; message := msg |}
      end
  end.

(** The rules registered for each section, in the order the section shows
    its fields; a section without mandatory rules has none. *)
Definition rules (sectionId : string) : list FieldRule :=
  if String.eqb sectionId "eligibility" then
    [ RequiredText "dateOfBirth" "Date of birth is required";
      MustBeTrue "isEligible" "You must confirm your eligibility";
      MustBeTrue "hasValidPassport" "You must confirm that you have a valid passport";
      MustBeTrue "canTravel" "You must confirm that you can travel";
      MustBeTrue "isGoodHealth" "You must confirm that you are in good health";
      MustBeTrue "willFollowRules" "You must agree to follow the rules" ]
  else if String.eqb sectionId "contact" then
    [ RequiredText "firstName" "First name is required";
      RequiredText "lastName" "Last name is required";
      RequiredText "email" "Email is required";
      EmailFormat "email" "Please enter a valid email address";
      RequiredText "phone" "Phone number is required";
      RequiredText "city" "City is required";
      RequiredText "country" "Country is required" ]
  else if String.eqb sectionId "personal" then
    [ RequiredText "ethnicity" "Ethnicity is required";
      RequiredText "representCountry" "Country to represent is required";
      RequiredText "height" "Height is required";
      RequiredText "weight" "Weight is required" ]
  else if String.eqb sectionId "background" then
    [ RequiredText "experience" "Experience is required";
      RequiredText "education" "Education is required";
      RequiredText "skills" "Skills are required" ]
  else if String.eqb sectionId "motivation" then
    [ RequiredText "motivation" "Motivation is required";
      RequiredText "goals" "Goals are required";
      RequiredText "hearAboutUs" "Please tell us how you heard about us" ]
  else if String.eqb sectionId "business" then
    [ RequiredText "strategy" "Strategy is required" ]
  else if String.eqb sectionId "photos" then
    [ AssetPresent "headShot1" "Head shot 1 is required";
      AssetPresent "headShot2" "Head shot 2 is required";
      AssetPresent "bodyShot1" "Body shot 1 is required";
      AssetPresent "bodyShot2" "Body shot 2 is required" ]
  else if String.eqb sectionId "profile" then
    [ RequiredText "bio" "Bio is required";
      WordCeiling "bio" maxWords "Bio must be 500 words or less";
      RequiredText "socialMedia" "Social media information is required" ]
  else if String.eqb sectionId "countryInfo" then
    [ RequiredText "countryOverview" "Country overview is required";
      WordCeiling "countryOverview" maxWords "Country overview must be 500 words or less";
      RequiredText "culturalInfo" "Cultural information is required";
      WordCeiling "culturalInfo" maxWords "Cultural information must be 500 words or less" ]
  else [].

(** Modelled from the spec: [validateApplicationForm] of [utils/formUtils],
    whose source is missing.  The rules of the section are evaluated against
    the record and the failures are collected in rule order; an unknown
    section, or one without rules, gives the empty list. *)
Definition validateApplicationForm (record : gmap string value) (sectionId : string)
  : list FormError :=
  omap (check record) (rules sectionId).

End FormUtils.

(** ** The state of the [ApplicationForm] component *)

(** What a handler asks of the outside: a toast, the two-second timer of the
    simulated submission, the parent's [onSubmitSuccess]. *)
Inductive effect :=
  | ToastError (title description : string)
  | ToastSuccess (title description : string)
  | SetTimeout (delay : Z)
  | OnSubmitSuccess.

(** One field per [useState] hook that the navigation and the validation
    read or write. *)
Record FormState := {
  currentSection : string;
  formData : gmap string value;
  errors : list FormError;
  agreeTerms : bool;
  isSubmitting : bool
}.

Definition setCurrentSection (v : string) (st : FormState) : FormState :=
  {| currentSection := v; formData := formData st; errors := errors st;
     agreeTerms := agreeTerms st; isSubmitting := isSubmitting st |}.

Definition setFormData (upd : gmap string value -> gmap string value) (st : FormState)
  : FormState :=
  {| currentSection := currentSection st; formData := upd (formData st);
     errors := errors st; agreeTerms := agreeTerms st;
     isSubmitting := isSubmitting st |}.

Definition setErrors (v : list FormError) (st : FormState) : FormState :=
  {| currentSection := currentSection st; formData := formData st; errors := v;
     agreeTerms := agreeTerms st; isSubmitting := isSubmitting st |}.

Definition setAgreeTerms (v : bool) (st : FormState) : FormState :=
  {| currentSection := currentSection st; formData := formData st;
     errors := errors st; agreeTerms := v; isSubmitting := isSubmitting st |}.

Definition setIsSubmitting (v : bool) (st : FormState) : FormState :=
  {| currentSection := currentSection st; formData := formData st;
     errors := errors st; agreeTerms := agreeTerms st; isSubmitting := v |}.

Definition initialFormData : gmap string value :=
  list_to_map
    [ ("firstName", VStr ""); ("middleName", VStr ""); ("lastName", VStr "");
      ("fullName", VStr ""); ("email", VStr ""); ("phone", VStr "");
      ("homePhone", VStr ""); ("country", VStr ""); ("city", VStr "");
      ("street", VStr ""); ("addressLine2", VStr ""); ("stateRegion", VStr "");
      ("zipCode", VStr ""); ("experience", VStr ""); ("education", VStr "");
      ("skills", VStr ""); ("motivation", VStr ""); ("goals", VStr "");
      ("strategy", VStr ""); ("dateOfBirth", VStr ""); ("age", VStr "");
      ("ethnicity", VStr ""); ("representCountry", VStr "");
      ("alternateCountry", VStr ""); ("bio", VStr ""); ("socialMedia", VStr "");
      ("height", VStr ""); ("weight", VStr ""); ("bust", VStr "");
      ("waist", VStr ""); ("hips", VStr ""); ("dressSize", VStr "");
      ("shoeSize", VStr ""); ("swimsuitSizeTop", VStr "");
      ("swimsuitSizeBottom", VStr ""); ("schoolAttended", VStr "");
      ("fieldOfStudy", VStr ""); ("highestEducation", VStr "");
      ("threeWords", VStr ""); ("hobbies", VStr "");
      ("pageantExperience", VStr ""); ("charity", VStr "");
      ("hearAboutUs", VStr ""); ("headShot1", VNull); ("headShot2", VNull);
      ("bodyShot1", VNull); ("bodyShot2", VNull); ("additionalImage1", VNull);
      ("additionalImage2", VNull); ("countryOverview", VStr "");
      ("culturalInfo", VStr ""); ("isEligible", VBool false);
      ("hasValidPassport", VBool false); ("canTravel", VBool false);
      ("isGoodHealth", VBool false); ("willFollowRules", VBool false) ].

Definition initialState : FormState :=
  {| currentSection := "eligibility"; formData := initialFormData; errors := [];
     agreeTerms := false; isSubmitting := false |}.

Definition ageError : FormError :=
  {| field := "dateOfBirth";
     message := "You must be between 18 and 35 years old to participate" |}.

Definition termsError : FormError :=
  {| field := "terms"; message := "You must agree to the terms and conditions" |}.

Definition submitErrorToast : effect :=
  ToastError "Please fix the errors before submitting"
             "There are errors in your application that need to be corrected.".

Definition submitSuccessToast : effect :=
  ToastSuccess "Application submitted successfully"
               "We'll review your application and contact you soon.".

(** [section => section.id === currentSection] *)
Definition is_section (current : string) (section : FormSection) : bool :=
  String.eqb (id section) current.

Section ApplicationForm.

(** The imports from [@/utils/formUtils]; [calculateAge] and [isAgeInRange]
    read the current date themselves. *)
Variable validateApplicationForm : gmap string value -> string -> list FormError.
Variable calculateAge : string -> number.
Variable isAgeInRange : string -> Z -> Z -> bool.

(** *** The effects deriving [fullName] and [age]

    The third effect of the component, on [currentSection], scrolls the form
    to its top and touches no state. *)

(** The names read by the render whose effect this is. *)
Definition nameParts (data : gmap string value) : list (option value) :=
  [ data !! "firstName"; data !! "middleName"; data !! "lastName" ].

(** [[first, middle, last].filter(Boolean).join(' ')] *)
Definition computeFullName (data : gmap string value) : string :=
  join " " (map ToString (List.filter ToBoolean (nameParts data))).

(** The effect on the names: [rendered] is the record the render read,
    [prev] the record the queued update applies to. *)
Definition fullNameEffect (rendered prev : gmap string value) : gmap string value :=
  <["fullName" := VStr (computeFullName rendered)]> prev.

(** The effect on the date of birth; nothing is queued when the date is
    empty. *)
Definition ageEffect (rendered prev : gmap string value) : gmap string value :=
  if ToBoolean (rendered !! "dateOfBirth") then
    let age := Number_toString (calculateAge (ToString (rendered !! "dateOfBirth"))) in
    <["age" := VStr age]> prev
  else prev.

(** The first render runs both effects. *)
Definition mount (data : gmap string value) : gmap string value :=
  ageEffect data (fullNameEffect data data).

(** A render of [next] after a render of [before]: an effect runs when one of
    its dependencies differs from the previous render, and the queued updates
    apply in the order of the effects. *)
Definition rerender (before next : gmap string value) : gmap string value :=
  let s1 := if decide (nameParts before = nameParts next) then next
            else fullNameEffect next next in
  if decide (before !! "dateOfBirth" = next !! "dateOfBirth") then s1
  else ageEffect next s1.

(** *** The handlers *)

Definition handleFieldChange (field : string) (value : string) (st : FormState)
  : FormState :=
  setFormData (fun prev => <[field := VStr value]> prev) st.

Definition handleCheckboxChange (field : string) (checked : bool) (st : FormState)
  : FormState :=
  setFormData (fun prev => <[field := VBool checked]> prev) st.

(** [files] is the [FileList | null] of the input. *)
Definition handleFileChange (field : string) (files : option (list File))
  (st : FormState) : FormState :=
  match files with
  | Some list =>
      if (0 <? length list)%nat then
        match head list with
        | Some file => setFormData (fun prev => <[field := VFile file]> prev) st
        | None => st
        end
      else st
  | None => st
  end.

(** A handler followed by the render it causes. *)
Definition withEffects (handler : FormState -> FormState) (st : FormState) : FormState :=
  let st' := handler st in
  setFormData (fun data => rerender (formData st) data) st'.

(** The index read in [formSections[currentIndex + 1]] lies between 0 and
    the last index, so the element is never [undefined]. *)
Definition handleNext (st : FormState) : FormState :=
  let sectionErrors := validateApplicationForm (formData st) (currentSection st) in
  let sectionErrors :=
    if String.eqb (currentSection st) "eligibility"
       && ToBoolean (formData st !! "dateOfBirth")
    then
      if negb (isAgeInRange (ToString (formData st !! "dateOfBirth")) 18 35)
      then (sectionErrors ++ [ageError])%list
      else sectionErrors
    else sectionErrors in
  let st1 := setErrors sectionErrors st in
  if (length sectionErrors =? 0)%nat then
    let currentIndex := findIndex (is_section (currentSection st)) formSections in
    if (currentIndex <? Z.of_nat (length formSections) - 1)%Z then
      match at_index formSections (currentIndex + 1) with
      | Some nextSection => setCurrentSection (id nextSection) st1
      | None => st1
      end
    else st1
  else st1.

Definition handlePrevious (st : FormState) : FormState :=
  let currentIndex := findIndex (is_section (currentSection st)) formSections in
  if (0 <? currentIndex)%Z then
    match at_index formSections (currentIndex - 1) with
    | Some prevSection => setCurrentSection (id prevSection) st
    | None => st
    end
  else st.

(** The errors gathered by the [forEach] of [handleSubmit]. *)
Definition collectErrors (data : gmap string value) : list FormError :=
  fold_left
    (fun allErrors section =>
       if negb (String.eqb (id section) "review") && negb (String.eqb (id section) "terms")
       then (allErrors ++ validateApplicationForm data (id section))%list
       else allErrors)
    formSections [].

(** The predicate of the [find] of [handleSubmit]: the section, validated
    again, reports a field that some gathered error names. *)
Definition reportsFailingField (data : gmap string value) (allErrors : list FormError)
  (section : FormSection) : bool :=
  existsb
    (fun error =>
       existsb (fun e => String.eqb (field e) (field error))
               (validateApplicationForm data (id section)))
    allErrors.

Definition handleSubmit (st : FormState) : FormState * list effect :=
  let allErrors := collectErrors (formData st) in
  let allErrors := if negb (agreeTerms st) then (allErrors ++ [termsError])%list else allErrors in
  let st1 := setErrors allErrors st in
  if (length allErrors =? 0)%nat then
    (setIsSubmitting true st1, [SetTimeout 2000])
  else
    match List.find (reportsFailingField (formData st) allErrors) formSections with
    | Some firstErrorSection =>
        if negb (String.eqb (id firstErrorSection) (currentSection st))
        then (setCurrentSection (id firstErrorSection) st1, [submitErrorToast])
        else (st1, [])
    | None => (st1, [])
    end.

(** The callback of the timer started by a successful [handleSubmit]. *)
Definition submitTimerFired (st : FormState) : FormState * list effect :=
  (setIsSubmitting false st, [OnSubmitSuccess; submitSuccessToast]).

(** *** The controls that call the handlers *)

(** The button of the section at position [index] in the navigation bar. *)
Definition sectionButtonClick (index : nat) (st : FormState) : FormState :=
  match formSections !! index with
  | Some section =>
      let currentIndex := findIndex (is_section (currentSection st)) formSections in
      if (Z.of_nat index <=? currentIndex)%Z then setCurrentSection (id section) st
      else st
  | None => st
  end.

(** The section select shown on narrow screens; [value] is the id of the
    chosen option. *)
Definition sectionSelectChange (value : string) (st : FormState) : FormState :=
  setCurrentSection value st.

(** The terms checkbox. *)
Definition agreeTermsChange (st : FormState) : FormState :=
  setAgreeTerms (negb (agreeTerms st)) st.

(** "Previous" is rendered on every section but the first. *)
Definition previousButtonClick (st : FormState) : FormState :=
  if negb (String.eqb (currentSection st) "eligibility") then handlePrevious st
  else st.

(** "Next" is rendered on every section but the review. *)
Definition nextButtonClick (st : FormState) : FormState :=
  if negb (String.eqb (currentSection st) "review") then handleNext st
  else st.

(** "Submit Application" is rendered on the review section and disabled
    while [isSubmitting]. *)
Definition submitButtonClick (st : FormState) : FormState * list effect :=
  if String.eqb (currentSection st) "review" then
    if isSubmitting st then (st, []) else handleSubmit st
  else (st, []).

End ApplicationForm.

(** ** The wizard as a machine driven by the user's actions *)

(** The text inputs, in the order of the sections: the fields passed to
    [handleFieldChange]. *)
Definition textInputs : list string :=
  [ "dateOfBirth"; "firstName"; "middleName"; "lastName"; "email"; "phone";
    "homePhone"; "street"; "addressLine2"; "city"; "stateRegion"; "zipCode";
    "country"; "ethnicity"; "representCountry"; "alternateCountry"; "height";
    "weight"; "bust"; "waist"; "hips"; "dressSize"; "shoeSize";
    "swimsuitSizeTop"; "swimsuitSizeBottom"; "schoolAttended"; "fieldOfStudy";
    "highestEducation"; "experience"; "education"; "skills"; "threeWords";
    "hobbies"; "pageantExperience"; "motivation"; "goals"; "charity";
    "hearAboutUs"; "strategy"; "bio"; "socialMedia"; "countryOverview";
    "culturalInfo" ].

(** The eligibility checkboxes: the fields passed to [handleCheckboxChange]. *)
Definition checkboxes : list string :=
  [ "isEligible"; "hasValidPassport"; "canTravel"; "isGoodHealth";
    "willFollowRules" ].

(** The six photo inputs of the photos section. *)
Definition photoSlots : list string :=
  [ "headShot1"; "headShot2"; "bodyShot1"; "bodyShot2";
    "additionalImage1"; "additionalImage2" ].

(** The fields an effect depends on. *)
Definition effectSources : list string :=
  [ "firstName"; "middleName"; "lastName"; "dateOfBirth" ].

Inductive event :=
  | EditText (f : string) (v : string)
  | EditCheckbox (f : string) (checked : bool)
  | EditFile (f : string) (files : option (list File))
  | ToggleTerms
  | ClickNext
  | ClickPrevious
  | ClickSection (index : nat)
  | SelectSection (v : string)
  | ClickSubmit
  | TimerFired.

Definition mem (f : string) (l : list string) : bool := existsb (String.eqb f) l.

(** The actions the rendered controls offer. *)
Definition offered (e : event) : bool :=
  match e with
  | EditText f _ => mem f textInputs
  | EditCheckbox f _ => mem f checkboxes
  | EditFile f _ => mem f photoSlots
  | ClickSection index => (index <? length formSections)%nat
  | SelectSection v => mem v (map id formSections)
  | _ => true
  end.

Section Wizard.

Variable validateApplicationForm : gmap string value -> string -> list FormError.
Variable calculateAge : string -> number.
Variable isAgeInRange : string -> Z -> Z -> bool.

(** The component after its first render. *)
Definition mounted : FormState :=
  setFormData (mount calculateAge) initialState.

Definition step (st : FormState) (e : event) : FormState * list effect :=
  match e with
  | EditText f v => (withEffects calculateAge (handleFieldChange f v) st, [])
  | EditCheckbox f b => (withEffects calculateAge (handleCheckboxChange f b) st, [])
  | EditFile f files => (withEffects calculateAge (handleFileChange f files) st, [])
  | ToggleTerms => (agreeTermsChange st, [])
  | ClickNext => (nextButtonClick validateApplicationForm isAgeInRange st, [])
  | ClickPrevious => (previousButtonClick st, [])
  | ClickSection index => (sectionButtonClick index st, [])
  | SelectSection v => (sectionSelectChange v st, [])
  | ClickSubmit => submitButtonClick validateApplicationForm st
  | TimerFired => submitTimerFired st
  end.

Fixpoint run (st : FormState) (es : list event) : FormState :=
  match es with
  | [] => st
  | e :: es' => run (fst (step st e)) es'
  end.

End Wizard.

(** ** What the edits maintain *)

(** A field and a value an input can write: a text into a text input, a
    boolean into a checkbox, a file into a photo slot. *)
Definition editableWith (f : string) (v : value) : Prop :=
  (mem f textInputs = true /\ exists s : string, v = VStr s)
  \/ (mem f checkboxes = true /\ exists b : bool, v = VBool b)
  \/ (mem f photoSlots = true /\ exists file : File, v = VFile file).

(** The record is consistent with its sources: the three names and the date
    of birth are texts, [fullName] is the value its effect computes from the
    names, and [age] is the value its effect computes from a non-empty date
    of birth. *)
Definition derivedFieldsOk (calculateAge : string -> number)
  (data : gmap string value) : Prop :=
  (forall g : string, In g effectSources -> exists s : string, data !! g = Some (VStr s))
  /\ data !! "fullName" = Some (VStr (computeFullName data))
  /\ (ToBoolean (data !! "dateOfBirth") = true ->
      data !! "age" =
      Some (VStr (Number_toString (calculateAge (ToString (data !! "dateOfBirth")))))).

(** The text of the age computed at [today] from the date of birth [dob]:
    the difference of the years, less one before the birthday. *)
Definition ageText (today : FormUtils.Date) (dob : string) : string :=
  match FormUtils.parseDate dob with
  | Some d =>
      pretty (FormUtils.year today - FormUtils.year d
              - (if FormUtils.before_birthday today d then 1 else 0))%Z
  | None => "NaN"
  end.

(** ** Spaces in a name *)

Definition startsWithSpace (s : string) : bool :=
  match s with
  | String c _ => Ascii.eqb c " "
  | EmptyString => false
  end.

Fixpoint endsWithSpace (s : string) : bool :=
  match s with
  | EmptyString => false
  | String c EmptyString => Ascii.eqb c " "
  | String _ s' => endsWithSpace s'
  end.

Fixpoint hasDoubleSpace (s : string) : bool :=
  match s with
  | EmptyString => false
  | String c s' => (Ascii.eqb c " " && startsWithSpace s') || hasDoubleSpace s'
  end.

(** No leading, trailing or double space. *)
Definition tidy (s : string) : bool :=
  negb (startsWithSpace s) && negb (endsWithSpace s) && negb (hasDoubleSpace s).

(** ** The age check of [handleNext], stated apart *)

(** The error [handleNext] adds to the section's own: on the eligibility
    section, with a date of birth filled in, when the age is out of range. *)
Definition ageCheck (isAgeInRange : string -> Z -> Z -> bool) (st : FormState)
  : list FormError :=
  if String.eqb (currentSection st) "eligibility"
     && ToBoolean (formData st !! "dateOfBirth")
     && negb (isAgeInRange (ToString (formData st !! "dateOfBirth")) 18%Z 35%Z)
  then [ageError] else [].

(** The age bounds of the eligibility check. *)
Definition ageInBounds (age : number) : bool :=
  match age with
  | Num a => ((18 <=? a) && (a <=? 35))%Z
  | NaN => false
  end.

(** What [handleNext] does once [sectionErrors] is final. *)
Definition afterValidation (sectionErrors : list FormError) (st : FormState)
  : FormState :=
  let st1 := setErrors sectionErrors st in
  if (length sectionErrors =? 0)%nat then
    let currentIndex := findIndex (is_section (currentSection st)) formSections in
    if (currentIndex <? Z.of_nat (length formSections) - 1)%Z then
      match at_index formSections (currentIndex + 1) with
      | Some nextSection => setCurrentSection (id nextSection) st1
      | None => st1
      end
    else st1
  else st1.

(** The sections [handleSubmit] validates, in order. *)
Definition validatedSections : list string :=
  [ "eligibility"; "contact"; "personal"; "background"; "motivation";
    "business"; "photos"; "profile"; "countryInfo" ].

(** ** Sample data *)

Definition today : FormUtils.Date :=
  {| FormUtils.year := 2024; FormUtils.month := 6; FormUtils.day := 15 |}.

Definition samplePhoto (n : N) : File :=
  {| file_name := "photo.jpg"; file_blob := n |}.

(** A record that passes every rule of [FormUtils.rules]. *)
Definition completeRecord : gmap string value :=
  list_to_map
    [ ("dateOfBirth", VStr "2000-06-15"); ("age", VStr "24");
      ("isEligible", VBool true); ("hasValidPassport", VBool true);
      ("canTravel", VBool true); ("isGoodHealth", VBool true);
      ("willFollowRules", VBool true);
      ("firstName", VStr "Ann"); ("lastName", VStr "Lee");
      ("fullName", VStr "Ann Lee"); ("email", VStr "ann@example.org");
      ("phone", VStr "5550100"); ("city", VStr "Lagos");
      ("country", VStr "Nigeria"); ("ethnicity", VStr "Yoruba");
      ("representCountry", VStr "Nigeria"); ("height", VStr "170");
      ("weight", VStr "60"); ("experience", VStr "Modelling");
      ("education", VStr "BSc"); ("skills", VStr "Dance");
      ("motivation", VStr "To inspire"); ("goals", VStr "To win");
      ("hearAboutUs", VStr "A friend"); ("strategy", VStr "Social media");
      ("headShot1", VFile (samplePhoto 1)); ("headShot2", VFile (samplePhoto 2));
      ("bodyShot1", VFile (samplePhoto 3)); ("bodyShot2", VFile (samplePhoto 4));
      ("bio", VStr "A short bio"); ("socialMedia", VStr "@ann");
      ("countryOverview", VStr "West Africa");
      ("culturalInfo", VStr "Many cultures") ]
  ∪ initialFormData.

(** The wizard on [section] with [record] filled in and nothing displayed. *)
Definition stateAt (section : string) (record : gmap string value) (agreed : bool)
  : FormState :=
  {| currentSection := section; formData := record; errors := [];
     agreeTerms := agreed; isSubmitting := false |}.

(** The complete record without an email and without a strategy. *)
Definition incompleteRecord : gmap string value :=
  <["strategy" := VStr ""]> (<["email" := VStr ""]> completeRecord).

(** The helpers written from the specification, at the sample date. *)
Definition sampleValidate : gmap string value -> string -> list FormError :=
  FormUtils.validateApplicationForm.

Definition sampleCalculateAge : string -> number := FormUtils.calculateAge today.

Definition sampleIsAgeInRange : string -> Z -> Z -> bool :=
  FormUtils.isAgeInRange today.

Definition contactSection : FormSection :=
  {| id := "contact"; title := "Contact Information"; badge := "2" |}.

Definition businessSection : FormSection :=
  {| id := "business"; title := "Business Plan"; badge := "6" |}.

Definition photosSection : FormSection :=
  {| id := "photos"; title := "Photos"; badge := "7" |}.

Definition eligibilitySection : FormSection :=
  {| id := "eligibility"; title := "Eligibility"; badge := "1" |}.

(** Filling in the eligibility section, advancing to the contact section and
    pressing "Next" there with nothing filled in. *)
Definition contactAttempt : list event :=
  [ EditText "dateOfBirth" "2000-06-15";
    EditCheckbox "isEligible" true; EditCheckbox "hasValidPassport" true;
    EditCheckbox "canTravel" true; EditCheckbox "isGoodHealth" true;
    EditCheckbox "willFollowRules" true;
    ClickNext; ClickNext ].

Definition sampleRun (es : list event) : FormState :=
  run sampleValidate sampleCalculateAge sampleIsAgeInRange
      (mounted sampleCalculateAge) es.

(** The eligibility section filled in, with [dob] as date of birth. *)
Definition bornOn (dob : string) : FormState :=
  stateAt "eligibility" (<["dateOfBirth" := VStr dob]> completeRecord) true.

(** The combined error list of [handleSubmit], written out. *)
Definition combinedErrors
  (validate : gmap string value -> string -> list FormError) (st : FormState)
  : list FormError :=
  (concat (map (validate (formData st)) validatedSections)
   ++ (if agreeTerms st then [] else [termsError]))%list.

(** ** What the view reads of the errors *)

(** [errors.find(error => error.field === field)?.message], [None] being
    [undefined]. *)
Definition getErrorMessage (st : FormState) (fieldName : string) : option string :=
  option_map message
    (List.find (fun error => String.eqb (field error) fieldName) (errors st)).

(** [errors.some(error => error.field === field)] *)
Definition hasError (st : FormState) (fieldName : string) : bool :=
  existsb (fun error => String.eqb (field error) fieldName) (errors st).

(** ** The director form: sections and navigation *)

Module DirectorApplicationForm.

(** The section type of the director form, a union of seven literals. *)
Inductive SectionId :=
  | contact | background | motivation | business | agreement | profile | country.

Inductive effect :=
  | ToastError (text : string)
  | ToastSuccess (text : string)
  | ScrollToTop
  | ConsoleLog
  | OnSubmitSuccess.

Section Navigation.

(** [form.trigger(names)] on the current values of the form: whether the
    named fields pass the schema. *)
Variable trigger : list string -> bool.

Definition goToNextSection (currentSection : SectionId) : SectionId * list effect :=
  let shouldContinue :=
    match currentSection with
    | contact => trigger ["fullName"; "email"; "phone"; "country"; "city"]
    | background => trigger ["workExperience"; "education"; "skills"]
    | motivation => trigger ["motivation"; "goals"]
    | business => trigger ["strategy"]
    | agreement => trigger ["agreeToTerms"; "agreeToConfidentiality"]
    | profile => trigger ["dateOfBirth"; "bio"; "socialMedia"]
    | country => false
    end in
  if shouldContinue then
    (match currentSection with
     | contact => background
     | background => motivation
     | motivation => business
     | business => agreement
     | agreement => profile
     | profile => country
     | country => country
     end, [ScrollToTop])
  else (currentSection, [ToastError "Please fix the errors before continuing"]).

End Navigation.

Definition goToPrevSection (currentSection : SectionId) : SectionId * list effect :=
  (match currentSection with
   | contact => contact
   | background => contact
   | motivation => background
   | business => motivation
   | agreement => business
   | profile => agreement
   | country => profile
   end, [ScrollToTop]).

(** The number shown in "Step n of 7". *)
Definition stepNumber (currentSection : SectionId) : string :=
  match currentSection with
  | contact => "1"
  | background => "2"
  | motivation => "3"
  | business => "4"
  | agreement => "5"
  | profile => "6"
  | country => "7"
  end.

(** The width of the progress bar, in per cent. *)
Definition progressWidth (currentSection : SectionId) : Z :=
  match currentSection with
  | contact => 14
  | background => 28
  | motivation => 42
  | business => 56
  | agreement => 70
  | profile => 85
  | country => 100
  end.

(** "Previous" is rendered on every section but the first and the last,
    "Next" on every section but the last. *)
Definition previousRendered (currentSection : SectionId) : bool :=
  match currentSection with
  | contact | country => false
  | _ => true
  end.

Definition nextRendered (currentSection : SectionId) : bool :=
  match currentSection with
  | country => false
  | _ => true
  end.

(** The names [goToNextSection] hands to [form.trigger] on each section; the
    last section has none. *)
Definition sectionFields (currentSection : SectionId) : list string :=
  match currentSection with
  | contact => ["fullName"; "email"; "phone"; "country"; "city"]
  | background => ["workExperience"; "education"; "skills"]
  | motivation => ["motivation"; "goals"]
  | business => ["strategy"]
  | agreement => ["agreeToTerms"; "agreeToConfidentiality"]
  | profile => ["dateOfBirth"; "bio"; "socialMedia"]
  | country => []
  end.

(** [onSubmit], called by the form with the values once they pass the
    schema. *)
Definition onSubmit : list effect :=
  [ConsoleLog; ToastSuccess "Director application submitted successfully!";
   OnSubmitSuccess].

(** The schema bounds of the three long texts, [z.string().max(2500)]: a
    length in code units. *)
Definition longTextAccepted (text : string) : bool :=
  (String.length text <=? 2500)%nat.

End DirectorApplicationForm.

(** ** The payment form *)

(** [\d] *)
Definition is_digit (c : ascii) : bool :=
  let n := N_of_ascii c in ((48 <=? n) && (n <=? 57))%N.

(** [s.replace(/[^...]/g, '')]: the characters of [s] that [keep] accepts. *)
Fixpoint keepChars (keep : ascii -> bool) (s : string) : string :=
  match s with
  | EmptyString => EmptyString
  | String c s' => if keep c then String c (keepChars keep s') else keepChars keep s'
  end.

(** [s.substring(0, n)] *)
Fixpoint substring0 (n : nat) (s : string) : string :=
  match n, s with
  | S n', String c s' => String c (substring0 n' s')
  | _, _ => EmptyString
  end.

Fixpoint allChars (p : ascii -> bool) (s : string) : bool :=
  match s with
  | EmptyString => true
  | String c s' => p c && allChars p s'
  end.

Fixpoint dropDigits (s : string) : string :=
  match s with
  | String c s' => if is_digit c then dropDigits s' else s
  | EmptyString => EmptyString
  end.

(** [/^\d*\.?\d{0,2}$/.test(s)]: digits, then possibly a point followed by at
    most two digits. *)
Definition amountPattern (s : string) : bool :=
  match dropDigits s with
  | EmptyString => true
  | String c r =>
      Ascii.eqb c "." && allChars is_digit r && (String.length r <=? 2)%nat
  end.

Module PaymentForm.

Inductive Method := card | paypal | bank.

(** The object handed to [validatePaymentForm]. *)
Record PaymentData := {
  pd_cardNumber : string;
  pd_expiryDate : string;
  pd_cvv : string;
  pd_name : string
}.

Record State := {
  paymentMethod : Method;
  cardNumber : string;
  expiryDate : string;
  cvv : string;
  name : string;
  bankName : string;
  accountNumber : string;
  routingNumber : string;
  emailAddress : string;
  isProcessing : bool;
  errors : list FormError;
  amount : string
}.

Inductive effect :=
  | PreventDefault
  | SetTimeout (delay : Z)
  | OnPaymentSuccess.

Definition initialState : State :=
  {| paymentMethod := card; cardNumber := ""; expiryDate := ""; cvv := "";
     name := ""; bankName := ""; accountNumber := ""; routingNumber := "";
     emailAddress := ""; isProcessing := false; errors := []; amount := "250" |}.

Definition setCardNumber (v : string) (st : State) : State :=
  {| paymentMethod := paymentMethod st; cardNumber := v;
     expiryDate := expiryDate st; cvv := cvv st; name := name st;
     bankName := bankName st; accountNumber := accountNumber st;
     routingNumber := routingNumber st; emailAddress := emailAddress st;
     isProcessing := isProcessing st; errors := errors st; amount := amount st |}.

Definition setExpiryDate (v : string) (st : State) : State :=
  {| paymentMethod := paymentMethod st; cardNumber := cardNumber st;
     expiryDate := v; cvv := cvv st; name := name st;
     bankName := bankName st; accountNumber := accountNumber st;
     routingNumber := routingNumber st; emailAddress := emailAddress st;
     isProcessing := isProcessing st; errors := errors st; amount := amount st |}.

Definition setCVV (v : string) (st : State) : State :=
  {| paymentMethod := paymentMethod st; cardNumber := cardNumber st;
     expiryDate := expiryDate st; cvv := v; name := name st;
     bankName := bankName st; accountNumber := accountNumber st;
     routingNumber := routingNumber st; emailAddress := emailAddress st;
     isProcessing := isProcessing st; errors := errors st; amount := amount st |}.

Definition setAmount (v : string) (st : State) : State :=
  {| paymentMethod := paymentMethod st; cardNumber := cardNumber st;
     expiryDate := expiryDate st; cvv := cvv st; name := name st;
     bankName := bankName st; accountNumber := accountNumber st;
     routingNumber := routingNumber st; emailAddress := emailAddress st;
     isProcessing := isProcessing st; errors := errors st; amount := v |}.

Definition setErrors (v : list FormError) (st : State) : State :=
  {| paymentMethod := paymentMethod st; cardNumber := cardNumber st;
     expiryDate := expiryDate st; cvv := cvv st; name := name st;
     bankName := bankName st; accountNumber := accountNumber st;
     routingNumber := routingNumber st; emailAddress := emailAddress st;
     isProcessing := isProcessing st; errors := v; amount := amount st |}.

Definition setIsProcessing (v : bool) (st : State) : State :=
  {| paymentMethod := paymentMethod st; cardNumber := cardNumber st;
     expiryDate := expiryDate st; cvv := cvv st; name := name st;
     bankName := bankName st; accountNumber := accountNumber st;
     routingNumber := routingNumber st; emailAddress := emailAddress st;
     isProcessing := v; errors := errors st; amount := amount st |}.

Definition setName (v : string) (st : State) : State :=
  {| paymentMethod := paymentMethod st; cardNumber := cardNumber st;
     expiryDate := expiryDate st; cvv := cvv st; name := v;
     bankName := bankName st; accountNumber := accountNumber st;
     routingNumber := routingNumber st; emailAddress := emailAddress st;
     isProcessing := isProcessing st; errors := errors st; amount := amount st |}.

Definition setBankName (v : string) (st : State) : State :=
  {| paymentMethod := paymentMethod st; cardNumber := cardNumber st;
     expiryDate := expiryDate st; cvv := cvv st; name := name st;
     bankName := v; accountNumber := accountNumber st;
     routingNumber := routingNumber st; emailAddress := emailAddress st;
     isProcessing := isProcessing st; errors := errors st; amount := amount st |}.

Definition setAccountNumber (v : string) (st : State) : State :=
  {| paymentMethod := paymentMethod st; cardNumber := cardNumber st;
     expiryDate := expiryDate st; cvv := cvv st; name := name st;
     bankName := bankName st; accountNumber := v;
     routingNumber := routingNumber st; emailAddress := emailAddress st;
     isProcessing := isProcessing st; errors := errors st; amount := amount st |}.

Definition setRoutingNumber (v : string) (st : State) : State :=
  {| paymentMethod := paymentMethod st; cardNumber := cardNumber st;
     expiryDate := expiryDate st; cvv := cvv st; name := name st;
     bankName := bankName st; accountNumber := accountNumber st;
     routingNumber := v; emailAddress := emailAddress st;
     isProcessing := isProcessing st; errors := errors st; amount := amount st |}.

Definition setEmailAddress (v : string) (st : State) : State :=
  {| paymentMethod := paymentMethod st; cardNumber := cardNumber st;
     expiryDate := expiryDate st; cvv := cvv st; name := name st;
     bankName := bankName st; accountNumber := accountNumber st;
     routingNumber := routingNumber st; emailAddress := v;
     isProcessing := isProcessing st; errors := errors st; amount := amount st |}.

Definition setPaymentMethod (v : Method) (st : State) : State :=
  {| paymentMethod := v; cardNumber := cardNumber st;
     expiryDate := expiryDate st; cvv := cvv st; name := name st;
     bankName := bankName st; accountNumber := accountNumber st;
     routingNumber := routingNumber st; emailAddress := emailAddress st;
     isProcessing := isProcessing st; errors := errors st; amount := amount st |}.

(** What the user does on the payment form, and the timer of the simulated
    payment. *)
Inductive event :=
  | TypeAmount (input : string)
  | TypeCardNumber (input : string)
  | TypeExpiryDate (input : string)
  | TypeCVV (input : string)
  | TypeName (input : string)
  | TypeEmailAddress (input : string)
  | TypeBankName (input : string)
  | TypeAccountNumber (input : string)
  | TypeRoutingNumber (input : string)
  | ChooseMethod (method : Method)
  | ClickPay
  | TimerFired.

Definition amountRequired : FormError :=
  {| field := "amount"; message := "Amount is required" |}.

Definition amountInvalid : FormError :=
  {| field := "amount"; message := "Please enter a valid amount greater than 0" |}.

Definition emailRequired : FormError :=
  {| field := "emailAddress"; message := "Email address is required" |}.

Definition bankNameRequired : FormError :=
  {| field := "bankName"; message := "Bank name is required" |}.

Definition accountNumberRequired : FormError :=
  {| field := "accountNumber"; message := "Account number is required" |}.

Definition routingNumberRequired : FormError :=
  {| field := "routingNumber"; message := "Routing number is required" |}.

(** [!s.trim()] *)
Definition blank (s : string) : bool := String.eqb (trim s) "".

Section Handlers.

(** The imports from [@/utils/formUtils]. *)
Variable validatePaymentForm : PaymentData -> list FormError.
Variable formatCardNumber : string -> string.
Variable formatExpiryDate : string -> string.

(** Whether [parseFloat(s)] is a number greater than 0, that is, the negation
    of [isNaN(numAmount) || numAmount <= 0]. *)
Variable isPositiveNumber : string -> bool.

(** The handlers of the inputs take [e.target.value]. *)
Definition handleCardNumberChange (input : string) (st : State) : State :=
  let value := substring0 16 (keepChars is_digit input) in
  setCardNumber (formatCardNumber value) st.

Definition handleExpiryDateChange (input : string) (st : State) : State :=
  let value := keepChars (fun c => is_digit c || Ascii.eqb c "/") input in
  if (String.length value <=? 5)%nat then setExpiryDate (formatExpiryDate value) st
  else st.

Definition handleCVVChange (input : string) (st : State) : State :=
  let value := keepChars is_digit input in
  if (String.length value <=? 4)%nat then setCVV value st else st.

Definition handleAmountChange (input : string) (st : State) : State :=
  let value := keepChars (fun c => is_digit c || Ascii.eqb c ".") input in
  if amountPattern value then setAmount value st else st.

Definition processPayment (st : State) : State * list effect :=
  (setIsProcessing true st, [SetTimeout 2000]).

(** The callback of the timer of [processPayment]. *)
Definition paymentTimerFired (st : State) : State * list effect :=
  (setIsProcessing false st, [OnPaymentSuccess]).

(** The effects of the handler, [e.preventDefault()] first. *)
Definition handleSubmit (st : State) : State * list effect :=
  let amountErrors :=
    if blank (amount st) then [amountRequired]
    else if negb (isPositiveNumber (amount st)) then [amountInvalid]
    else [] in
  if (0 <? length amountErrors)%nat then
    (setErrors amountErrors st, [PreventDefault])
  else
    match paymentMethod st with
    | card =>
        let paymentData :=
          {| pd_cardNumber := cardNumber st; pd_expiryDate := expiryDate st;
             pd_cvv := cvv st; pd_name := name st |} in
        let validationErrors := validatePaymentForm paymentData in
        let st1 := setErrors (amountErrors ++ validationErrors)%list st in
        if (length validationErrors =? 0)%nat && (length amountErrors =? 0)%nat
        then (fst (processPayment st1), PreventDefault :: snd (processPayment st1))
        else (st1, [PreventDefault])
    | paypal =>
        if blank (emailAddress st) then
          (setErrors (amountErrors ++ [emailRequired])%list st, [PreventDefault])
        else (fst (processPayment st), PreventDefault :: snd (processPayment st))
    | bank =>
        let bankErrors :=
          ((if blank (bankName st) then [bankNameRequired] else [])
           ++ (if blank (accountNumber st) then [accountNumberRequired] else [])
           ++ (if blank (routingNumber st) then [routingNumberRequired] else []))%list in
        let st1 := setErrors (amountErrors ++ bankErrors)%list st in
        if (length bankErrors =? 0)%nat && (length amountErrors =? 0)%nat
        then (fst (processPayment st1), PreventDefault :: snd (processPayment st1))
        else (st1, [PreventDefault])
    end.

(** The submit button is disabled while [isProcessing]. *)
Definition payButtonClick (st : State) : State * list effect :=
  if isProcessing st then (st, []) else handleSubmit st.

Definition step (st : State) (e : event) : State * list effect :=
  match e with
  | TypeAmount input => (handleAmountChange input st, [])
  | TypeCardNumber input => (handleCardNumberChange input st, [])
  | TypeExpiryDate input => (handleExpiryDateChange input st, [])
  | TypeCVV input => (handleCVVChange input st, [])
  | TypeName input => (setName input st, [])
  | TypeEmailAddress input => (setEmailAddress input st, [])
  | TypeBankName input => (setBankName input st, [])
  | TypeAccountNumber input => (setAccountNumber input st, [])
  | TypeRoutingNumber input => (setRoutingNumber input st, [])
  | ChooseMethod method => (setPaymentMethod method st, [])
  | ClickPay => payButtonClick st
  | TimerFired => paymentTimerFired st
  end.

Fixpoint run (st : State) (es : list event) : State :=
  match es with
  | [] => st
  | e :: es' => run (fst (step st e)) es'
  end.

End Handlers.

End PaymentForm.

(** ** The page: selection, application, payment, success *)

Module Index.

(** The two kinds of application; [applicationType] is one of them or
    ['none'], here [None]. *)
Inductive Applicant := participant | director.

Inductive Step := select | application | payment | success.

Record State := {
  applicationType : option Applicant;
  step : Step;
  transition : bool
}.

(** The callbacks the handlers hand to [setTimeout]. *)
Inductive callback :=
  | ToPayment
  | ToSuccess
  | ToApplication
  | ToSelection
  | ToApplicationSelected (type : Applicant).

Inductive effect :=
  | SetTimeout (delay : Z) (cb : callback)
  | ToastSuccess (text : string).

Definition initialState : State :=
  {| applicationType := None; step := select; transition := false |}.

Definition setTransition (v : bool) (st : State) : State :=
  {| applicationType := applicationType st; step := step st; transition := v |}.

Definition setStep (v : Step) (st : State) : State :=
  {| applicationType := applicationType st; step := v; transition := transition st |}.

Definition setApplicationType (v : option Applicant) (st : State) : State :=
  {| applicationType := v; step := step st; transition := transition st |}.

Definition handleApplicationSuccess (st : State) : State * list effect :=
  (setTransition true st, [SetTimeout 300 ToPayment]).

Definition handlePaymentSuccess (st : State) : State * list effect :=
  (setTransition true st, [SetTimeout 300 ToSuccess]).

Definition handleBackToApplication (st : State) : State * list effect :=
  (setTransition true st, [SetTimeout 300 ToApplication]).

Definition handleBackToSelection (st : State) : State * list effect :=
  (setTransition true st, [SetTimeout 300 ToSelection]).

Definition handleSelectType (type : Applicant) (st : State) : State * list effect :=
  (setTransition true (setApplicationType (Some type) st),
   [SetTimeout 300 (ToApplicationSelected type)]).

(** The body of each timer callback. *)
Definition fire (cb : callback) (st : State) : State * list effect :=
  match cb with
  | ToPayment =>
      (setTransition false (setStep payment st),
       [ToastSuccess
          "Application received! Please complete payment to finalize your submission."])
  | ToSuccess =>
      (setTransition false (setStep success st),
       [ToastSuccess "Payment successful! Your application is now complete."])
  | ToApplication => (setTransition false (setStep application st), [])
  | ToSelection =>
      (setTransition false (setApplicationType None (setStep select st)), [])
  | ToApplicationSelected type =>
      (setTransition false (setStep application st),
       [ToastSuccess
          ((match type with
            | participant => "Participant"
            | director => "National Director"
            end) ++ " application selected")])
  end.

(** What the page renders at each step. *)
Inductive view :=
  | SelectionScreen
  | ParticipantForm
  | DirectorForm
  | PaymentScreen
  | SuccessScreen
  | Nothing.

Definition render (st : State) : view :=
  match step st, applicationType st with
  | select, _ => SelectionScreen
  | application, Some participant => ParticipantForm
  | application, Some director => DirectorForm
  | application, None => Nothing
  | payment, _ => PaymentScreen
  | success, _ => SuccessScreen
  end.

(** The page with its pending timers. *)
Record Page := { state : State; pending : list callback }.

Definition initialPage : Page := {| state := initialState; pending := [] |}.

(** What happens to the page: a click on a button of the selection or of
    the back buttons, the success callback of a form, or a pending timer that
    fires. *)
Inductive event :=
  | SelectType (type : Applicant)
  | BackToSelection
  | BackToApplication
  | ApplicationSuccess
  | PaymentSuccess
  | Fire (n : nat).

Definition timers (effects : list effect) : list callback :=
  omap (fun e => match e with SetTimeout _ cb => Some cb | _ => None end) effects.

Definition handle (handler : State -> State * list effect) (p : Page) : Page :=
  {| state := fst (handler (state p));
     pending := (pending p ++ timers (snd (handler (state p))))%list |}.

Definition stepPage (p : Page) (e : event) : Page :=
  match e with
  | SelectType type => handle (handleSelectType type) p
  | BackToSelection => handle handleBackToSelection p
  | BackToApplication => handle handleBackToApplication p
  | ApplicationSuccess => handle handleApplicationSuccess p
  | PaymentSuccess => handle handlePaymentSuccess p
  | Fire n =>
      match pending p !! n with
      | Some cb =>
          {| state := fst (fire cb (state p)); pending := delete n (pending p) |}
      | None => p
      end
  end.

Definition runPage (p : Page) (es : list event) : Page := fold_left stepPage es p.

End Index.

(** [n] one-letter words, each followed by a space. *)
Fixpoint wordsText (n : nat) : string :=
  match n with
  | O => EmptyString
  | S n' => String "a" (String " " (wordsText n'))
  end.

(** The wizard on the contact section after a refused "Next". *)
Definition refusedContact : FormState := sampleRun contactAttempt.

(** The active section is the id of one of the eleven sections. *)
Definition knownSection (st : FormState) : Prop :=
  exists section : FormSection, In section formSections /\ currentSection st = id section.

(** ** Sample helpers for the payment form *)

Fixpoint anyChar (p : ascii -> bool) (s : string) : bool :=
  match s with
  | EmptyString => false
  | String c s' => p c || anyChar p s'
  end.

(** Modelled from the spec: [validatePaymentForm] of [utils/formUtils], whose
    source is missing: sixteen digits in the card number once the other
    characters are removed, an expiry of the form MM/YY with a month from 1
    to 12, a CVV of three or four digits, a cardholder name. *)
Definition samplePaymentValidate (data : PaymentForm.PaymentData) : list FormError :=
  ((if (String.length (keepChars is_digit (PaymentForm.pd_cardNumber data)) =? 16)%nat
    then [] else [ {| field := "cardNumber"; message := "Card number must be 16 digits" |} ])
   ++ (match PaymentForm.pd_expiryDate data with
       | String m1 (String m2 (String "/" (String y1 (String y2 EmptyString)))) =>
           match FormUtils.digit m1, FormUtils.digit m2,
                 FormUtils.digit y1, FormUtils.digit y2 with
           | Some a, Some b, Some _, Some _ =>
               if ((1 <=? 10 * a + b) && (10 * a + b <=? 12))%Z then []
               else [ {| field := "expiryDate"; message := "Invalid expiry date" |} ]
           | _, _, _, _ => [ {| field := "expiryDate"; message := "Invalid expiry date" |} ]
           end
       | _ => [ {| field := "expiryDate"; message := "Invalid expiry date" |} ]
       end)
   ++ (if allChars is_digit (PaymentForm.pd_cvv data)
          && (3 <=? String.length (PaymentForm.pd_cvv data))%nat
          && (String.length (PaymentForm.pd_cvv data) <=? 4)%nat
       then [] else [ {| field := "cvv"; message := "CVV must be 3 or 4 digits" |} ])
   ++ (if PaymentForm.blank (PaymentForm.pd_name data)
       then [ {| field := "name"; message := "Cardholder name is required" |} ]
       else []))%list.

(** For a text of the amount pattern, [parseFloat] gives a number above 0
    exactly when one of its digits is not 0. *)
Definition samplePositive (s : string) : bool :=
  anyChar (fun c => is_digit c && negb (Ascii.eqb c "0")) s.

(** The payment form with a PayPal address filled in. *)
Definition paypalReady : PaymentForm.State :=
  PaymentForm.setEmailAddress "ann@example.org"
    (PaymentForm.setPaymentMethod PaymentForm.paypal PaymentForm.initialState).

(** * Properties *)

(** ** Word counting *)

Lemma nonempty_app_char (cur : string) (c : ascii) :
  nonempty (cur ++ String c EmptyString) = true.
Proof. destruct cur; reflexivity. Qed.

(** The pieces of a split that survive [filter(Boolean)] are the word being
    read, if any, and the words that start later. *)
Lemma split_ws_from_count (s : string) :
  forall (in_sep : bool) (cur : string),
    (in_sep = true -> cur = EmptyString) ->
    length (List.filter nonempty (split_ws_from in_sep cur s)) =
    if nonempty cur then S (FormUtils.count_runs true s)
    else FormUtils.count_runs false s.
Proof.
  induction s as [|c s IH]; intros in_sep cur Hsep; simpl.
  - destruct (nonempty cur); reflexivity.
  - destruct (is_space c) eqn:Hc.
    + destruct in_sep.
      * rewrite IH by (intros _; now apply Hsep).
        rewrite (Hsep eq_refl). reflexivity.
      * cbn [List.filter].
        destruct (nonempty cur); cbn [length];
          rewrite (IH true EmptyString) by reflexivity; reflexivity.
    + rewrite IH by discriminate.
      rewrite nonempty_app_char.
      destruct (nonempty cur); reflexivity.
Qed.

Lemma count_runs_trimStart (s : string) :
  FormUtils.count_runs false (trimStart s) = FormUtils.count_runs false s.
Proof.
  induction s as [|c s IH]; simpl; [reflexivity|].
  destruct (is_space c) eqn:Hc; [exact IH|].
  simpl. rewrite Hc. reflexivity.
Qed.

Lemma count_runs_trimEnd (s : string) :
  forall in_word, FormUtils.count_runs in_word (trimEnd s) = FormUtils.count_runs in_word s.
Proof.
  induction s as [|c s IH]; intros in_word; simpl; [reflexivity|].
  destruct (trimEnd s) as [|c' r] eqn:Hr.
  - destruct (is_space c) eqn:Hc; simpl; rewrite ?Hc, <- IH; reflexivity.
  - cbn [FormUtils.count_runs]. destruct (is_space c); rewrite <- IH; reflexivity.
Qed.

Lemma count_runs_trim (s : string) :
  FormUtils.count_runs false (trim s) = FormUtils.count_runs false s.
Proof. unfold trim. now rewrite count_runs_trimEnd, count_runs_trimStart. Qed.

(** C9: the inline word counter returns, for every string, the number of
    maximal sequences of non-white-space characters (white space at the ends
    and runs of white space do not count); the count is a function of the
    string alone, so every call on the same input gives the same count; and
    both ["  a  b   c "] and ["a b c"] count 3 words. *)
Theorem C9_word_count_runs :
  (forall s : string, inlineWordCount s = FormUtils.countWords s)
  /\ inlineWordCount "  a  b   c " = 3
  /\ inlineWordCount "a b c" = 3
  /\ FormUtils.countWords "  a  b   c " = 3
  /\ FormUtils.countWords "a b c" = 3.
Proof.
  split; [|repeat split; reflexivity].
  intros s. unfold inlineWordCount, FormUtils.countWords.
  destruct (nonempty s) eqn:Hs.
  - unfold split_ws. rewrite split_ws_from_count by discriminate.
    simpl. apply count_runs_trim.
  - destruct s; [reflexivity | discriminate].
Qed.

(** ** Edits and the derived fields *)

Section Effects.

Variable calculateAge : string -> number.

(** An update of a field no effect depends on triggers no effect. *)
Lemma rerender_other_field (data : gmap string value) (f : string) (v : value) :
  ~ In f effectSources ->
  rerender calculateAge data (<[f := v]> data) = <[f := v]> data.
Proof.
  intros Hf. unfold rerender, nameParts.
  assert (Hne : forall g, In g effectSources -> (<[f := v]> data) !! g = data !! g).
  { intros g Hg. apply lookup_insert_ne. intros ->. now apply Hf. }
  rewrite !Hne by (simpl; tauto).
  rewrite !decide_True by reflexivity. reflexivity.
Qed.

Lemma rerender_same (data : gmap string value) :
  rerender calculateAge data data = data.
Proof. unfold rerender. rewrite !decide_True by reflexivity. reflexivity. Qed.

End Effects.

Lemma photoSlots_not_sources (f : string) : In f photoSlots -> ~ In f effectSources.
Proof.
  unfold photoSlots, effectSources. simpl.
  intros H. repeat (destruct H as [<- | H]; [intuition discriminate|]).
  destruct H.
Qed.

Lemma setFormData_id (st : FormState) : setFormData (fun data => data) st = st.
Proof. destruct st; reflexivity. Qed.

(** C10: a file selection on a photo slot with no file (a null or empty file
    list) leaves the whole state as it was; with at least one file the slot
    holds exactly the first file of the list, every other field of the record
    keeps its value and the rest of the state is unchanged. *)
Theorem C10_handleFileChange_frame
  (calculateAge : string -> number) (slot other : string)
  (files : option (list File)) (st : FormState) :
  In slot photoSlots ->
  other <> slot ->
  let st' := withEffects calculateAge (handleFileChange slot files) st in
  match files with
  | Some (file :: _) =>
      formData st' !! slot = Some (VFile file)
      /\ formData st' !! other = formData st !! other
      /\ currentSection st' = currentSection st
      /\ errors st' = errors st
      /\ agreeTerms st' = agreeTerms st
      /\ isSubmitting st' = isSubmitting st
  | _ => st' = st
  end.
Proof.
  intros Hslot Hother st'. subst st'. unfold withEffects, handleFileChange.
  destruct files as [[|file rest]|]; cbn -[rerender]; unfold setFormData;
    cbn -[rerender].
  - rewrite rerender_same. destruct st; reflexivity.
  - rewrite rerender_other_field by now apply photoSlots_not_sources.
    rewrite lookup_insert_eq, lookup_insert_ne by congruence. tauto.
  - rewrite rerender_same. destruct st; reflexivity.
Qed.

Lemma C10_witness :
  let st := stateAt "photos" completeRecord true in
  let st' := withEffects sampleCalculateAge
               (handleFileChange "headShot1" (Some [samplePhoto 7; samplePhoto 8])) st in
  In "headShot1" photoSlots
  /\ "headShot2" <> "headShot1"
  /\ formData st' !! "headShot1" = Some (VFile (samplePhoto 7))
  /\ formData st' !! "headShot2" = formData st !! "headShot2".
Proof.
  assert (H1 : In "headShot1" photoSlots) by (simpl; tauto).
  assert (H2 : "headShot2" <> "headShot1") by discriminate.
  destruct (C10_handleFileChange_frame sampleCalculateAge "headShot1" "headShot2"
              (Some [samplePhoto 7; samplePhoto 8])
              (stateAt "photos" completeRecord true) H1 H2) as (Ha & Hb & _).
  exact (conj H1 (conj H2 (conj Ha Hb))).
Defined.

(** Cancelling the file dialog keeps the photo chosen before. *)
Example handleFileChange_cancel :
  handleFileChange "headShot1" None (stateAt "photos" completeRecord true)
  = stateAt "photos" completeRecord true
  /\ handleFileChange "headShot1" (Some []) (stateAt "photos" completeRecord true)
     = stateAt "photos" completeRecord true.
Proof. split; reflexivity. Qed.

(** ** The order of the sections *)

Lemma findIndex_formSections (i : nat) (section : FormSection) :
  formSections !! i = Some section ->
  findIndex (is_section (id section)) formSections = Z.of_nat i.
Proof.
  intros H.
  do 11 (destruct i as [|i]; [injection H as <-; reflexivity|]).
  discriminate H.
Qed.

Lemma formSections_bound (i : nat) (section : FormSection) :
  formSections !! i = Some section -> (i < 11)%nat.
Proof. intros H. apply lookup_lt_Some in H. exact H. Qed.

Lemma state_eta (st : FormState) :
  st = {| currentSection := currentSection st; formData := formData st;
          errors := errors st; agreeTerms := agreeTerms st;
          isSubmitting := isSubmitting st |}.
Proof. destruct st; reflexivity. Qed.

(** ** Advancing and retreating *)

Lemma handleNext_split
  (validate : gmap string value -> string -> list FormError)
  (isAgeInRange : string -> Z -> Z -> bool) (st : FormState) :
  handleNext validate isAgeInRange st =
  afterValidation
    (validate (formData st) (currentSection st) ++ ageCheck isAgeInRange st)%list st.
Proof.
  unfold handleNext, ageCheck, afterValidation.
  destruct (String.eqb (currentSection st) "eligibility"
            && ToBoolean (formData st !! "dateOfBirth")); cbn [andb].
  - destruct (negb _); [reflexivity | now rewrite app_nil_r].
  - now rewrite app_nil_r.
Qed.

Lemma at_index_of_nat {A : Type} (xs : list A) (i : nat) :
  at_index xs (Z.of_nat i) = xs !! i.
Proof.
  unfold at_index.
  destruct (Z.of_nat i <? 0)%Z eqn:Hneg; [apply Z.ltb_lt in Hneg; lia|].
  now rewrite Nat2Z.id.
Qed.

(** C3: on a section that is not the last, [handleNext] displays exactly the
    errors of the section's validation (with the age error on the eligibility
    section); when there are none the active section becomes the next one in
    the fixed order and the displayed list is empty, otherwise the active
    section stays.  The record is not touched. *)
Theorem C3_handleNext_advances
  (validate : gmap string value -> string -> list FormError)
  (isAgeInRange : string -> Z -> Z -> bool)
  (st : FormState) (i : nat) (section next : FormSection) :
  formSections !! i = Some section ->
  formSections !! S i = Some next ->
  currentSection st = id section ->
  let sectionErrors :=
    (validate (formData st) (id section) ++ ageCheck isAgeInRange st)%list in
  let st' := handleNext validate isAgeInRange st in
  errors st' = sectionErrors
  /\ currentSection st' = match sectionErrors with
                          | [] => id next
                          | _ :: _ => id section
                          end
  /\ formData st' = formData st
  /\ agreeTerms st' = agreeTerms st
  /\ isSubmitting st' = isSubmitting st.
Proof.
  intros Hi Hnext Hcur. cbv zeta.
  rewrite handleNext_split, Hcur.
  generalize (validate (formData st) (id section) ++ ageCheck isAgeInRange st)%list.
  intros sectionErrors. unfold afterValidation.
  rewrite Hcur, (findIndex_formSections i section Hi).
  assert (Hlt : (Z.of_nat i <? Z.of_nat (length formSections) - 1)%Z = true).
  { apply Z.ltb_lt. apply formSections_bound in Hnext. simpl. lia. }
  rewrite Hlt.
  replace (Z.of_nat i + 1)%Z with (Z.of_nat (S i)) by lia.
  rewrite at_index_of_nat, Hnext.
  destruct sectionErrors as [|e l]; cbn; rewrite ?Hcur; repeat split; reflexivity.
Qed.

Lemma C3_witness :
  let st := stateAt "business" completeRecord true in
  formSections !! 5%nat = Some businessSection
  /\ formSections !! 6%nat = Some photosSection
  /\ currentSection st = id businessSection
  /\ errors (handleNext sampleValidate sampleIsAgeInRange st) =
     (sampleValidate (formData st) (id businessSection)
      ++ ageCheck sampleIsAgeInRange st)%list.
Proof.
  refine (conj eq_refl (conj eq_refl (conj eq_refl _))).
  exact (proj1 (C3_handleNext_advances sampleValidate sampleIsAgeInRange
                  (stateAt "business" completeRecord true) 5
                  businessSection photosSection eq_refl eq_refl eq_refl)).
Defined.

(** With a strategy filled in, "Next" on the business plan leads to the
    photos with nothing displayed; without one it stays and displays the
    error. *)
Example handleNext_business :
  handleNext sampleValidate sampleIsAgeInRange (stateAt "business" completeRecord true)
  = stateAt "photos" completeRecord true
  /\ handleNext sampleValidate sampleIsAgeInRange
       (stateAt "business" incompleteRecord true)
     = setErrors [ {| field := "strategy"; message := "Strategy is required" |} ]
         (stateAt "business" incompleteRecord true).
Proof. split; vm_compute; reflexivity. Qed.

(** C4 (as implemented): on a section that is not the first, [handlePrevious] moves
    the active section one step back; it runs no validation, and the
    displayed error list, the record and the rest of the state stay exactly as
    they were, so no new error list is produced and the old one is not
    cleared. *)
Theorem C4_handlePrevious_retreats
  (st : FormState) (i : nat) (prev section : FormSection) :
  formSections !! i = Some prev ->
  formSections !! S i = Some section ->
  currentSection st = id section ->
  let st' := handlePrevious st in
  currentSection st' = id prev
  /\ errors st' = errors st
  /\ formData st' = formData st
  /\ agreeTerms st' = agreeTerms st
  /\ isSubmitting st' = isSubmitting st.
Proof.
  intros Hprev Hi Hcur st'. subst st'. unfold handlePrevious.
  rewrite Hcur, (findIndex_formSections (S i) section Hi).
  assert (Hpos : (0 <? Z.of_nat (S i))%Z = true) by (apply Z.ltb_lt; lia).
  rewrite Hpos.
  replace (Z.of_nat (S i) - 1)%Z with (Z.of_nat i) by lia.
  rewrite at_index_of_nat, Hprev. repeat split; reflexivity.
Qed.

Lemma C4_witness :
  let st := sampleRun contactAttempt in
  formSections !! 0%nat = Some eligibilitySection
  /\ formSections !! 1%nat = Some contactSection
  /\ currentSection st = id contactSection
  /\ currentSection (handlePrevious st) = id eligibilitySection
  /\ errors (handlePrevious st) = errors st.
Proof.
  assert (H : currentSection (sampleRun contactAttempt) = id contactSection)
    by (vm_compute; reflexivity).
  destruct (C4_handlePrevious_retreats (sampleRun contactAttempt) 0
              eligibilitySection contactSection eq_refl eq_refl H)
    as (Hc & He & _).
  exact (conj eq_refl (conj eq_refl (conj H (conj Hc He)))).
Defined.

(** After "Next" was refused on the empty contact section, "Previous" leads
    back to the eligibility section with the six contact errors still
    displayed: the error list is not cleared. *)
Lemma C4_counterexample_errors_kept :
  let st := sampleRun contactAttempt in
  currentSection st = "contact"
  /\ currentSection (handlePrevious st) = "eligibility"
  /\ map field (errors (handlePrevious st)) =
     [ "firstName"; "lastName"; "email"; "phone"; "city"; "country" ]
  /\ errors (handlePrevious st) <> [].
Proof.
  vm_compute. repeat split; try reflexivity. intros H. discriminate H.
Qed.

(** ** Submitting *)

Section Submit.

Variable validate : gmap string value -> string -> list FormError.

Lemma collectErrors_concat (data : gmap string value) :
  collectErrors validate data = concat (map (validate data) validatedSections).
Proof.
  unfold collectErrors, validatedSections. cbn.
  rewrite ?app_nil_r, <- ?app_assoc. reflexivity.
Qed.

Lemma find_first {A : Type} (p : A -> bool) (l : list A) (x : A) :
  List.find p l = Some x ->
  exists k : nat, l !! k = Some x /\ p x = true
    /\ forall (j : nat) (y : A), (j < k)%nat -> l !! j = Some y -> p y = false.
Proof.
  induction l as [|a l IH]; simpl; [discriminate|].
  destruct (p a) eqn:Ha.
  - intros [= <-]. exists 0%nat. repeat split; [exact Ha|]. intros j y Hj. lia.
  - intros Hf. destruct (IH Hf) as (k & Hk & Hp & Hfirst).
    exists (S k). repeat split; [exact Hk | exact Hp |].
    intros [|j] y Hj Hy; simpl in Hy.
    + now injection Hy as <-.
    + apply (Hfirst j y); [lia | exact Hy].
Qed.

Lemma find_is_Some {A : Type} (p : A -> bool) (l : list A) (y : A) :
  In y l -> p y = true -> exists x, List.find p l = Some x.
Proof.
  intros Hin Hp. destruct (List.find p l) as [x|] eqn:Hf; [now exists x|].
  rewrite (find_none p l Hf y Hin) in Hp. discriminate.
Qed.

(** A section other than the review sits before it. *)
Lemma review_is_last (k : nat) (section : FormSection) :
  formSections !! k = Some section -> id section <> "review" -> (k < 10)%nat.
Proof.
  intros Hk Hid. pose proof (formSections_bound k section Hk) as Hb.
  destruct (decide (k = 10%nat)) as [->|]; [|lia].
  injection Hk as <-. now elim Hid.
Qed.

Lemma before_review (k : nat) (section : FormSection) :
  formSections !! k = Some section -> (k < 10)%nat ->
  String.eqb (id section) "review" = false.
Proof.
  intros Hk Hlt.
  do 10 (destruct k as [|k]; [injection Hk as <-; reflexivity|]). lia.
Qed.

Lemma handleSubmit_errors (st : FormState) :
  errors (fst (handleSubmit validate st)) = combinedErrors validate st
  /\ formData (fst (handleSubmit validate st)) = formData st.
Proof.
  unfold handleSubmit, combinedErrors.
  rewrite collectErrors_concat.
  destruct (agreeTerms st); cbn [negb]; rewrite ?app_nil_r;
    repeat case_match; split; reflexivity.
Qed.

(** When a section other than the review reports a failing field, the [find]
    of [handleSubmit] stops on the first section that does, and the handler
    jumps there with one toast. *)
Lemma handleSubmit_jump (st : FormState) (s : FormSection) :
  currentSection st = "review" ->
  In s formSections ->
  id s <> "review" ->
  reportsFailingField validate (formData st) (combinedErrors validate st) s = true ->
  exists (k : nat) (firstErrorSection : FormSection),
    formSections !! k = Some firstErrorSection
    /\ reportsFailingField validate (formData st) (combinedErrors validate st)
         firstErrorSection = true
    /\ (forall (j : nat) (earlier : FormSection),
          (j < k)%nat -> formSections !! j = Some earlier ->
          reportsFailingField validate (formData st) (combinedErrors validate st)
            earlier = false)
    /\ handleSubmit validate st =
       (setCurrentSection (id firstErrorSection)
          (setErrors (combinedErrors validate st) st),
        [submitErrorToast]).
Proof.
  intros Hcur Hin Hid Hrep.
  destruct (find_is_Some _ _ s Hin Hrep) as [sec Hfind].
  destruct (find_first _ _ _ Hfind) as (k & Hk & Hp & Hfirst).
  exists k, sec. repeat split; [exact Hk | exact Hp | exact Hfirst |].
  apply list_elem_of_In, list_elem_of_lookup in Hin. destruct Hin as [ks Hks].
  assert (Hle : (k <= ks)%nat).
  { destruct (le_lt_dec k ks) as [|Hlt]; [assumption|].
    rewrite (Hfirst ks s Hlt Hks) in Hrep. discriminate. }
  pose proof (review_is_last ks s Hks Hid) as Hks10.
  assert (Hsec : String.eqb (id sec) "review" = false).
  { apply (before_review k sec Hk). lia. }
  assert (Hne : combinedErrors validate st <> []).
  { intros Hnil. rewrite Hnil in Hrep. discriminate. }
  unfold handleSubmit. rewrite collectErrors_concat.
  replace (if negb (agreeTerms st)
           then (concat (map (validate (formData st)) validatedSections)
                 ++ [termsError])%list
           else concat (map (validate (formData st)) validatedSections))
    with (combinedErrors validate st)
    by (unfold combinedErrors; destruct (agreeTerms st); cbn [negb];
        rewrite ?app_nil_r; reflexivity).
  destruct (combinedErrors validate st) as [|e l] eqn:Hall; [now elim Hne|].
  cbn [length Nat.eqb]. rewrite Hfind, Hcur, Hsec. reflexivity.
Qed.

(** A validated section with an error reports a failing field. *)
Lemma failing_section_reports (st : FormState) (sid : string) (e : FormError) :
  In sid validatedSections ->
  In e (validate (formData st) sid) ->
  exists s : FormSection,
    In s formSections /\ id s = sid /\ id s <> "review"
    /\ reportsFailingField validate (formData st) (combinedErrors validate st) s = true.
Proof.
  intros Hsid He.
  assert (Hs : exists s, In s formSections /\ id s = sid /\ id s <> "review").
  { assert (Hall : forallb
      (fun sid' => existsb
         (fun s => String.eqb (id s) sid' && negb (String.eqb (id s) "review"))
         formSections) validatedSections = true) by reflexivity.
    rewrite forallb_forall in Hall. specialize (Hall sid Hsid).
    apply existsb_exists in Hall. destruct Hall as (s & Hin & Hs).
    apply andb_prop in Hs. destruct Hs as [Hs1 Hs2].
    apply String.eqb_eq in Hs1. apply negb_true_iff, String.eqb_neq in Hs2.
    now exists s. }
  destruct Hs as (s & Hin & Hids & Hrev). exists s.
  repeat split; try assumption.
  unfold reportsFailingField. apply existsb_exists. exists e. split.
  - unfold combinedErrors. apply in_or_app. left.
    apply in_concat. exists (validate (formData st) sid). split; [|exact He].
    apply in_map_iff. now exists sid.
  - apply existsb_exists. exists e. rewrite Hids. split; [exact He|].
    apply String.eqb_refl.
Qed.

End Submit.

(** From the review section, [handleSubmit] validates every section but
    terms and review against the record, concatenates the errors in section
    order and appends the terms error when the terms are not agreed.
    Whenever some section other than the review, validated again, reports a
    field named in this combined list, the handler displays the combined
    list, moves the active section to the first section in order that reports
    such a field and issues exactly one error notification; the record is
    unchanged. *)
Lemma handleSubmit_first_failing
  (validate : gmap string value -> string -> list FormError)
  (st : FormState) (s : FormSection) :
  currentSection st = "review" ->
  In s formSections ->
  id s <> "review" ->
  reportsFailingField validate (formData st) (combinedErrors validate st) s = true ->
  errors (fst (handleSubmit validate st)) = combinedErrors validate st
  /\ formData (fst (handleSubmit validate st)) = formData st
  /\ exists (k : nat) (firstErrorSection : FormSection),
       formSections !! k = Some firstErrorSection
       /\ reportsFailingField validate (formData st) (combinedErrors validate st)
            firstErrorSection = true
       /\ (forall (j : nat) (earlier : FormSection),
             (j < k)%nat -> formSections !! j = Some earlier ->
             reportsFailingField validate (formData st)
               (combinedErrors validate st) earlier = false)
       /\ handleSubmit validate st =
          (setCurrentSection (id firstErrorSection)
             (setErrors (combinedErrors validate st) st),
           [submitErrorToast]).
Proof.
  intros Hcur Hin Hid Hrep.
  destruct (handleSubmit_errors validate st) as [He Hd].
  repeat split; [exact He | exact Hd |].
  now apply (handleSubmit_jump validate st s).
Qed.

(** As soon as a validated section has an error, the jump and the
    notification take place. *)
Lemma handleSubmit_section_error
  (validate : gmap string value -> string -> list FormError)
  (st : FormState) (sid : string) (e : FormError) :
  currentSection st = "review" ->
  In sid validatedSections ->
  In e (validate (formData st) sid) ->
  exists firstErrorSection : FormSection,
    In firstErrorSection formSections
    /\ handleSubmit validate st =
       (setCurrentSection (id firstErrorSection)
          (setErrors (combinedErrors validate st) st),
        [submitErrorToast]).
Proof.
  intros Hcur Hsid He.
  destruct (failing_section_reports validate st sid e Hsid He)
    as (s & Hin & _ & Hrev & Hrep).
  destruct (handleSubmit_jump validate st s Hcur Hin Hrev Hrep)
    as (k & sec & Hk & _ & _ & Heq).
  exists sec. split; [|exact Heq].
  apply list_elem_of_In, list_elem_of_lookup. now exists k.
Qed.

(** A record without an email (contact) and without a strategy (business):
    both errors are displayed and the wizard jumps to contact, the earlier of
    the two sections, with one notification. *)
Example handleSubmit_contact_before_business :
  handleSubmit sampleValidate (stateAt "review" incompleteRecord true) =
  (setCurrentSection "contact"
     (setErrors [ {| field := "email"; message := "Email is required" |};
                  {| field := "strategy"; message := "Strategy is required" |} ]
        (stateAt "review" incompleteRecord true)),
   [submitErrorToast]).
Proof. vm_compute. reflexivity. Qed.

Lemma concat_all_nil {A : Type} (ls : list (list A)) :
  (forall l, In l ls -> l = []) -> concat ls = [].
Proof.
  induction ls as [|l ls IH]; intros H; [reflexivity|].
  simpl. rewrite (H l) by (left; reflexivity).
  apply IH. intros l' Hl'. apply H. now right.
Qed.

(** C1 (terms error alone): when the record passes the validation of every
    section and the terms are not agreed, the combined list of [handleSubmit]
    is the terms error alone, hence not empty; the handler displays it, but
    the active section does not move (no section, validated again, reports
    the field [terms]) and no notification is issued. *)
Theorem C1_terms_only_no_notification
  (validate : gmap string value -> string -> list FormError) (st : FormState) :
  agreeTerms st = false ->
  (forall section : FormSection,
      In section formSections -> validate (formData st) (id section) = []) ->
  combinedErrors validate st = [termsError]
  /\ handleSubmit validate st = (setErrors [termsError] st, []).
Proof.
  intros Hterms Hvalid.
  assert (Hall : combinedErrors validate st = [termsError]).
  { unfold combinedErrors. rewrite Hterms, concat_all_nil; [reflexivity|].
    intros l Hl. apply in_map_iff in Hl. destruct Hl as (sid & <- & Hsid).
    assert (Hin : exists s, In s formSections /\ id s = sid).
    { assert (Hb : forallb
        (fun sid' => existsb (fun s => String.eqb (id s) sid') formSections)
        validatedSections = true) by reflexivity.
      rewrite forallb_forall in Hb. specialize (Hb sid Hsid).
      apply existsb_exists in Hb. destruct Hb as (s & Hs & Heq).
      apply String.eqb_eq in Heq. now exists s. }
    destruct Hin as (s & Hs & <-). now apply Hvalid. }
  split; [exact Hall|].
  unfold handleSubmit. rewrite collectErrors_concat.
  unfold combinedErrors in Hall. rewrite Hterms in *. cbn [negb]. rewrite Hall.
  cbn [length Nat.eqb].
  destruct (List.find _ formSections) as [sec|] eqn:Hfind; [|reflexivity].
  apply find_some in Hfind. destruct Hfind as [Hin Hrep].
  unfold reportsFailingField in Hrep. rewrite (Hvalid sec Hin) in Hrep.
  discriminate Hrep.
Qed.

Lemma C1_witness :
  let st := stateAt "review" completeRecord false in
  agreeTerms st = false
  /\ (forall section : FormSection,
        In section formSections -> sampleValidate (formData st) (id section) = [])
  /\ combinedErrors sampleValidate st = [termsError]
  /\ handleSubmit sampleValidate st = (setErrors [termsError] st, []).
Proof.
  assert (H1 : agreeTerms (stateAt "review" completeRecord false) = false)
    by reflexivity.
  assert (H2 : forall section : FormSection,
             In section formSections ->
             sampleValidate (formData (stateAt "review" completeRecord false))
               (id section) = []).
  { intros section Hin. simpl in Hin.
    repeat (destruct Hin as [<-|Hin]; [vm_compute; reflexivity|]).
    destruct Hin. }
  exact (conj H1 (conj H2
           (C1_terms_only_no_notification sampleValidate
              (stateAt "review" completeRecord false) H1 H2))).
Defined.

(** A complete record with the terms agreed starts the submission. *)
Example handleSubmit_complete :
  handleSubmit sampleValidate (stateAt "review" completeRecord true) =
  (setIsSubmitting true (stateAt "review" completeRecord true), [SetTimeout 2000]).
Proof. vm_compute. reflexivity. Qed.

(** ** Jumping between sections *)

(** The navigation bar rejects a click on a section after the active one. *)
Lemma sectionButtonClick_forward_rejected
  (st : FormState) (i j : nat) (current : FormSection) :
  formSections !! i = Some current ->
  currentSection st = id current ->
  (i < j)%nat ->
  sectionButtonClick j st = st.
Proof.
  intros Hi Hcur Hlt. unfold sectionButtonClick.
  destruct (formSections !! j) as [target|]; [|reflexivity].
  rewrite Hcur, (findIndex_formSections i current Hi).
  destruct (Z.of_nat j <=? Z.of_nat i)%Z eqn:Hle; [|reflexivity].
  apply Z.leb_le in Hle. lia.
Qed.

(** The navigation bar accepts a click on the active section or an earlier
    one; only the active section changes. *)
Lemma sectionButtonClick_backward_accepted
  (st : FormState) (i j : nat) (current target : FormSection) :
  formSections !! i = Some current ->
  formSections !! j = Some target ->
  currentSection st = id current ->
  (j <= i)%nat ->
  sectionButtonClick j st = setCurrentSection (id target) st.
Proof.
  intros Hi Hj Hcur Hle. unfold sectionButtonClick.
  rewrite Hj, Hcur, (findIndex_formSections i current Hi).
  destruct (Z.of_nat j <=? Z.of_nat i)%Z eqn:Hle'; [reflexivity|].
  apply Z.leb_gt in Hle'. lia.
Qed.

(** C2 (the section select): on the first section, choosing the review in
    the section select makes the review the active section, although the
    review has index 10 and the active section index 0; the same choice in
    the navigation bar is rejected. *)
Theorem C2_select_jumps_forward :
  findIndex (is_section (currentSection initialState)) formSections = 0%Z
  /\ findIndex (is_section "review") formSections = 10%Z
  /\ currentSection (sectionSelectChange "review" initialState) = "review"
  /\ sectionButtonClick 10 initialState = initialState.
Proof. repeat split; reflexivity. Qed.

(** ** While a submission is outstanding *)

(** C8 (as implemented): while [isSubmitting] holds on the review section, a click
    on the submit button changes nothing and has no effect; the navigation is
    not guarded: "Previous" moves the active section back to the country
    information, leaving the rest of the state (and [isSubmitting]) as it
    was, and from there "Next" runs [handleNext] as usual. *)
Theorem C8_submitting_guards_submit_only
  (validate : gmap string value -> string -> list FormError)
  (isAgeInRange : string -> Z -> Z -> bool) (st : FormState) :
  currentSection st = "review" ->
  isSubmitting st = true ->
  submitButtonClick validate st = (st, [])
  /\ previousButtonClick st = setCurrentSection "countryInfo" st
  /\ nextButtonClick validate isAgeInRange (previousButtonClick st) =
     handleNext validate isAgeInRange (setCurrentSection "countryInfo" st).
Proof.
  intros Hcur Hsub.
  assert (Hprev : previousButtonClick st = setCurrentSection "countryInfo" st).
  { unfold previousButtonClick, handlePrevious. rewrite Hcur. reflexivity. }
  repeat split.
  - unfold submitButtonClick. rewrite Hcur, Hsub. reflexivity.
  - exact Hprev.
  - rewrite Hprev. reflexivity.
Qed.

Lemma C8_witness :
  let st := fst (handleSubmit sampleValidate (stateAt "review" completeRecord true)) in
  currentSection st = "review"
  /\ isSubmitting st = true
  /\ submitButtonClick sampleValidate st = (st, [])
  /\ previousButtonClick st = setCurrentSection "countryInfo" st.
Proof.
  assert (H1 : currentSection
                 (fst (handleSubmit sampleValidate
                         (stateAt "review" completeRecord true))) = "review")
    by (vm_compute; reflexivity).
  assert (H2 : isSubmitting
                 (fst (handleSubmit sampleValidate
                         (stateAt "review" completeRecord true))) = true)
    by (vm_compute; reflexivity).
  destruct (C8_submitting_guards_submit_only sampleValidate sampleIsAgeInRange
              _ H1 H2) as (Hs & Hp & _).
  exact (conj H1 (conj H2 (conj Hs Hp))).
Defined.

(** While the submission started by a complete record is outstanding,
    "Previous" is accepted: the active section leaves the review. *)
Lemma C8_counterexample_retreat_accepted :
  let st := fst (handleSubmit sampleValidate (stateAt "review" completeRecord true)) in
  isSubmitting st = true
  /\ currentSection st = "review"
  /\ currentSection
       (fst (step sampleValidate sampleCalculateAge sampleIsAgeInRange st ClickPrevious))
     = "countryInfo"
  /\ fst (step sampleValidate sampleCalculateAge sampleIsAgeInRange st ClickPrevious)
     <> st.
Proof.
  vm_compute. repeat split; try reflexivity. intros H. discriminate H.
Qed.

(** ** The age check *)

(** C7: with a date of birth filled in, [handleNext] keeps the errors of the
    section's own validation and adds the age error exactly when the active
    section is the eligibility section and the age derived from the date of
    birth is outside 18 to 35, both bounds included; the error is keyed to
    [dateOfBirth] and its message names both bounds.  [handleSubmit] adds no
    age error to the combined list. *)
Theorem C7_age_check_on_eligibility
  (validate : gmap string value -> string -> list FormError)
  (today : FormUtils.Date) (st : FormState) (dob : string) :
  formData st !! "dateOfBirth" = Some (VStr dob) ->
  dob <> "" ->
  errors (handleNext validate (FormUtils.isAgeInRange today) st) =
    (validate (formData st) (currentSection st)
     ++ (if String.eqb (currentSection st) "eligibility"
            && negb (ageInBounds (FormUtils.calculateAge today dob))
         then [ageError] else []))%list
  /\ errors (fst (handleSubmit validate st)) = combinedErrors validate st
  /\ field ageError = "dateOfBirth"
  /\ message ageError = "You must be between 18 and 35 years old to participate".
Proof.
  intros Hdob Hne.
  split; [|split; [apply handleSubmit_errors | split; reflexivity]].
  rewrite handleNext_split. unfold afterValidation.
  assert (Herr : forall l, errors
    (if (length l =? 0)%nat then
       if (findIndex (is_section (currentSection st)) formSections
           <? Z.of_nat (length formSections) - 1)%Z then
         match at_index formSections
                 (findIndex (is_section (currentSection st)) formSections + 1) with
         | Some nextSection => setCurrentSection (id nextSection) (setErrors l st)
         | None => setErrors l st
         end
       else setErrors l st
     else setErrors l st) = l).
  { intros l. repeat case_match; reflexivity. }
  cbv zeta. rewrite Herr. f_equal.
  unfold ageCheck, FormUtils.isAgeInRange, ageInBounds. rewrite Hdob. cbn [ToBoolean ToString].
  assert (Hb : negb (String.eqb dob "") = true).
  { apply negb_true_iff, String.eqb_neq. exact Hne. }
  rewrite Hb, andb_true_r. reflexivity.
Qed.

Lemma C7_witness :
  let st := bornOn "2006-06-16" in
  formData st !! "dateOfBirth" = Some (VStr "2006-06-16")
  /\ "2006-06-16" <> ""
  /\ errors (handleNext sampleValidate (FormUtils.isAgeInRange today) st) =
       (sampleValidate (formData st) (currentSection st)
        ++ (if String.eqb (currentSection st) "eligibility"
               && negb (ageInBounds (FormUtils.calculateAge today "2006-06-16"))
            then [ageError] else []))%list.
Proof.
  assert (H1 : formData (bornOn "2006-06-16") !! "dateOfBirth"
               = Some (VStr "2006-06-16")) by (vm_compute; reflexivity).
  assert (H2 : "2006-06-16" <> "") by discriminate.
  exact (conj H1 (conj H2
           (proj1 (C7_age_check_on_eligibility sampleValidate today
                     (bornOn "2006-06-16") "2006-06-16" H1 H2)))).
Defined.

(** On 2024-06-15: born on 2006-06-15 (18 today) and on 1988-06-16 (35 until
    tomorrow) pass and reach the contact section; born on 2006-06-16 (still
    17) and on 1988-06-15 (36 today) stay with the age error; and the same
    dates of birth raise no age error on the profile section. *)
Example age_gate_boundaries :
  FormUtils.calculateAge today "2006-06-15" = Num 18
  /\ FormUtils.calculateAge today "1988-06-16" = Num 35
  /\ FormUtils.calculateAge today "2006-06-16" = Num 17
  /\ FormUtils.calculateAge today "1988-06-15" = Num 36
  /\ handleNext sampleValidate sampleIsAgeInRange (bornOn "2006-06-15")
     = setCurrentSection "contact" (bornOn "2006-06-15")
  /\ handleNext sampleValidate sampleIsAgeInRange (bornOn "1988-06-16")
     = setCurrentSection "contact" (bornOn "1988-06-16")
  /\ handleNext sampleValidate sampleIsAgeInRange (bornOn "2006-06-16")
     = setErrors [ageError] (bornOn "2006-06-16")
  /\ handleNext sampleValidate sampleIsAgeInRange (bornOn "1988-06-15")
     = setErrors [ageError] (bornOn "1988-06-15")
  /\ handleNext sampleValidate sampleIsAgeInRange
       (setCurrentSection "profile" (bornOn "1988-06-15"))
     = setCurrentSection "countryInfo" (bornOn "1988-06-15").
Proof. repeat split; vm_compute; reflexivity. Qed.

(** ** The derived fields along a session *)

Section Derived.

Variable validate : gmap string value -> string -> list FormError.
Variable calculateAge : string -> number.
Variable isAgeInRange : string -> Z -> Z -> bool.

Lemma rerender_lookup_other (before next : gmap string value) (g : string) :
  g <> "fullName" -> g <> "age" ->
  rerender calculateAge before next !! g = next !! g.
Proof.
  intros Hf Ha. unfold rerender, fullNameEffect, ageEffect.
  repeat case_decide; repeat case_match;
    rewrite ?lookup_insert_ne by congruence; reflexivity.
Qed.

Lemma rerender_lookup_fullName (before next : gmap string value) :
  rerender calculateAge before next !! "fullName" =
  if decide (nameParts before = nameParts next) then next !! "fullName"
  else Some (VStr (computeFullName next)).
Proof.
  unfold rerender, fullNameEffect, ageEffect.
  repeat case_decide; repeat case_match;
    rewrite ?(lookup_insert_ne _ "age" "fullName") by discriminate;
    rewrite ?lookup_insert_eq; reflexivity.
Qed.

Lemma rerender_lookup_age (before next : gmap string value) :
  rerender calculateAge before next !! "age" =
  if decide (before !! "dateOfBirth" = next !! "dateOfBirth") then next !! "age"
  else if ToBoolean (next !! "dateOfBirth")
       then Some (VStr (Number_toString
                          (calculateAge (ToString (next !! "dateOfBirth")))))
       else next !! "age".
Proof.
  unfold rerender, fullNameEffect, ageEffect.
  repeat case_decide; repeat case_match;
    rewrite ?lookup_insert_eq;
    rewrite ?(lookup_insert_ne _ "fullName" "age") by discriminate; reflexivity.
Qed.

Lemma computeFullName_nameParts (a b : gmap string value) :
  nameParts a = nameParts b -> computeFullName a = computeFullName b.
Proof. unfold computeFullName. now intros ->. Qed.

Lemma editable_not_derived (f : string) (v : value) :
  editableWith f v -> f <> "fullName" /\ f <> "age".
Proof.
  intros [[H _]|[[H _]|[H _]]]; split; intros ->; discriminate H.
Qed.

Lemma editable_source_text (f : string) (v : value) :
  editableWith f v -> In f effectSources -> exists s : string, v = VStr s.
Proof.
  intros [[_ H]|[[H _]|[H _]]] Hin; [exact H| |];
    simpl in Hin; repeat (destruct Hin as [<-|Hin]; [discriminate H|]);
    destruct Hin.
Qed.

(** One edit keeps the record consistent. *)
Lemma rerender_keeps_derived (data : gmap string value) (f : string) (v : value) :
  editableWith f v ->
  derivedFieldsOk calculateAge data ->
  derivedFieldsOk calculateAge (rerender calculateAge data (<[f := v]> data)).
Proof.
  intros Hed (Hsrc & Hfull & Hage).
  destruct (editable_not_derived f v Hed) as [Hnf Hna].
  set (next := <[f := v]> data).
  assert (Hres : forall g, In g effectSources ->
            rerender calculateAge data next !! g = next !! g).
  { intros g Hg. apply rerender_lookup_other; intros ->; simpl in Hg;
      intuition discriminate. }
  assert (Hparts : nameParts (rerender calculateAge data next) = nameParts next).
  { unfold nameParts. rewrite !Hres by (simpl; tauto). reflexivity. }
  split; [|split].
  - intros g Hg. rewrite (Hres g Hg). subst next.
    destruct (decide (f = g)) as [->|Hne].
    + rewrite lookup_insert_eq.
      destruct (editable_source_text g v Hed Hg) as [s ->]. now exists s.
    + rewrite lookup_insert_ne by exact Hne. now apply Hsrc.
  - rewrite rerender_lookup_fullName, (computeFullName_nameParts _ _ Hparts).
    case_decide as Hsame; [|reflexivity].
    subst next. rewrite lookup_insert_ne by exact Hnf.
    rewrite Hfull. f_equal. f_equal. now apply computeFullName_nameParts.
  - rewrite (Hres "dateOfBirth") by (simpl; tauto).
    intros Htrue. rewrite rerender_lookup_age.
    case_decide as Hsame.
    + subst next. rewrite lookup_insert_ne by exact Hna.
      rewrite <- Hsame in *. now apply Hage.
    + rewrite Htrue. reflexivity.
Qed.

(** The updates queued by the effects change no dependency: the render they
    cause runs no effect. *)
Lemma rerender_settles (before next : gmap string value) :
  rerender calculateAge next (rerender calculateAge before next) =
  rerender calculateAge before next.
Proof.
  set (res := rerender calculateAge before next).
  assert (Hres : forall g, In g effectSources -> res !! g = next !! g).
  { intros g Hg. apply rerender_lookup_other; intros ->; simpl in Hg;
      intuition discriminate. }
  unfold rerender at 1, nameParts.
  rewrite !Hres by (simpl; tauto).
  rewrite !decide_True by reflexivity. reflexivity.
Qed.

Lemma mounted_derived : derivedFieldsOk calculateAge (formData (mounted calculateAge)).
Proof.
  split; [|split].
  - intros g Hg. simpl in Hg.
    repeat (destruct Hg as [<-|Hg]; [exists ""; reflexivity|]). destruct Hg.
  - reflexivity.
  - intros H. discriminate H.
Qed.

Lemma handleNext_formData (st : FormState) :
  formData (handleNext validate isAgeInRange st) = formData st.
Proof.
  rewrite handleNext_split. unfold afterValidation. cbv zeta.
  repeat case_match; reflexivity.
Qed.

Lemma handlePrevious_formData (st : FormState) :
  formData (handlePrevious st) = formData st.
Proof. unfold handlePrevious. repeat case_match; reflexivity. Qed.

(** An action of the user leaves the record alone or is one edit of it. *)
Lemma step_formData (st : FormState) (e : event) :
  offered e = true ->
  formData (fst (step validate calculateAge isAgeInRange st e)) = formData st
  \/ exists (f : string) (v : value),
       editableWith f v
       /\ formData (fst (step validate calculateAge isAgeInRange st e)) =
          rerender calculateAge (formData st) (<[f := v]> (formData st)).
Proof.
  intros Hoff. destruct e as [f v|f b|f files| | | |index|v| |]; cbn -[rerender].
  - right. exists f, (VStr v). split; [left; split; [exact Hoff | now exists v]|].
    reflexivity.
  - right. exists f, (VBool b). split; [right; left; split; [exact Hoff | now exists b]|].
    reflexivity.
  - destruct files as [[|file rest]|]; cbn -[rerender].
    + left. apply rerender_same.
    + right. exists f, (VFile file).
      split; [right; right; split; [exact Hoff | now exists file]|]. reflexivity.
    + left. apply rerender_same.
  - left. reflexivity.
  - left. unfold nextButtonClick. case_match; [apply handleNext_formData | reflexivity].
  - left. unfold previousButtonClick.
    case_match; [apply handlePrevious_formData | reflexivity].
  - left. unfold sectionButtonClick. repeat case_match; reflexivity.
  - left. reflexivity.
  - left. unfold submitButtonClick. repeat case_match; try reflexivity.
    apply handleSubmit_errors.
  - left. reflexivity.
Qed.

Lemma run_keeps_derived (es : list event) :
  forall st : FormState,
    forallb offered es = true ->
    derivedFieldsOk calculateAge (formData st) ->
    derivedFieldsOk calculateAge
      (formData (run validate calculateAge isAgeInRange st es)).
Proof.
  induction es as [|e es IH]; intros st Hoff Hok; [exact Hok|].
  simpl in Hoff. apply andb_prop in Hoff. destruct Hoff as [He Hes].
  cbn [run]. apply IH; [exact Hes|].
  destruct (step_formData st e He) as [-> | (f & v & Hed & ->)]; [exact Hok|].
  now apply rerender_keeps_derived.
Qed.

Lemma session_derived (es : list event) :
  forallb offered es = true ->
  derivedFieldsOk calculateAge
    (formData (run validate calculateAge isAgeInRange (mounted calculateAge) es)).
Proof. intros H. apply run_keeps_derived; [exact H | apply mounted_derived]. Qed.

End Derived.

(** ** The full name *)

Lemma startsWithSpace_app (a b : string) :
  a <> "" -> startsWithSpace (a ++ b) = startsWithSpace a.
Proof. destruct a; [congruence | reflexivity]. Qed.

Lemma app_nonempty_r (a b : string) : b <> "" -> (a ++ b) <> "".
Proof. destruct a; simpl; [trivial | discriminate]. Qed.

Lemma endsWithSpace_app (a b : string) :
  b <> "" -> endsWithSpace (a ++ b) = endsWithSpace b.
Proof.
  intros Hb. induction a as [|c a IH]; [reflexivity|].
  simpl. pose proof (app_nonempty_r a b Hb) as Hab.
  destruct (a ++ b) eqn:E; [congruence | exact IH].
Qed.

Lemma hasDoubleSpace_app (a b : string) :
  hasDoubleSpace (a ++ b) =
  hasDoubleSpace a || hasDoubleSpace b || (endsWithSpace a && startsWithSpace b).
Proof.
  induction a as [|c a IH].
  - change ("" ++ b) with b. simpl. now rewrite orb_false_r.
  - change (String c a ++ b) with (String c (a ++ b)).
    change (hasDoubleSpace (String c (a ++ b)))
      with ((Ascii.eqb c " " && startsWithSpace (a ++ b)) || hasDoubleSpace (a ++ b)).
    rewrite IH.
    change (hasDoubleSpace (String c a))
      with ((Ascii.eqb c " " && startsWithSpace a) || hasDoubleSpace a).
    destruct a as [|c' a].
    + change ("" ++ b) with b. cbn [startsWithSpace endsWithSpace hasDoubleSpace].
      destruct (Ascii.eqb c " "), (startsWithSpace b), (hasDoubleSpace b);
        reflexivity.
    + change (String c' a ++ b) with (String c' (a ++ b)).
      change (endsWithSpace (String c (String c' a)))
        with (endsWithSpace (String c' a)).
      change (startsWithSpace (String c' (a ++ b))) with (Ascii.eqb c' " ").
      change (startsWithSpace (String c' a)) with (Ascii.eqb c' " ").
      generalize (hasDoubleSpace (String c' a)) (endsWithSpace (String c' a))
                 (hasDoubleSpace b) (startsWithSpace b)
                 (Ascii.eqb c " ") (Ascii.eqb c' " ").
      intros [] [] [] [] [] []; reflexivity.
Qed.

Lemma nonempty_true (s : string) : nonempty s = true <-> s <> "".
Proof.
  unfold nonempty. rewrite negb_true_iff. apply String.eqb_neq.
Qed.

(** Joining tidy, non-empty parts with single spaces gives a tidy text. *)
Lemma tidy_join (parts : list string) :
  Forall (fun part => nonempty part = true /\ tidy part = true) parts ->
  tidy (join " " parts) = true
  /\ (parts <> [] -> join " " parts <> "").
Proof.
  induction 1 as [|x rest [Hx Htx] Hrest IH]; [split; [reflexivity | congruence]|].
  apply nonempty_true in Hx.
  destruct rest as [|y rest'].
  - simpl. split; [exact Htx | intros _; exact Hx].
  - destruct IH as [HtJ HneJ]. specialize (HneJ ltac:(discriminate)).
    change (join " " (x :: y :: rest'))
      with (x ++ String " " (join " " (y :: rest'))).
    set (J := join " " (y :: rest')) in *.
    unfold tidy in *.
    apply andb_prop in Htx. destruct Htx as [Htx Hdx].
    apply andb_prop in Htx. destruct Htx as [Hsx Hex].
    apply andb_prop in HtJ. destruct HtJ as [HtJ HdJ].
    apply andb_prop in HtJ. destruct HtJ as [HsJ HeJ].
    apply negb_true_iff in Hdx, Hsx, Hex, HdJ, HsJ, HeJ.
    split; [|intros _; apply app_nonempty_r; discriminate].
    rewrite startsWithSpace_app by exact Hx.
    rewrite endsWithSpace_app by discriminate.
    rewrite hasDoubleSpace_app.
    assert (HendJ : endsWithSpace (String " " J) = false).
    { simpl. destruct J; [congruence | exact HeJ]. }
    rewrite Hsx, HendJ, Hdx, Hex. simpl. rewrite HsJ, HdJ. reflexivity.
Qed.

Lemma tidy_join_filter (parts : list string) :
  forallb tidy parts = true ->
  tidy (join " " (List.filter nonempty parts)) = true.
Proof.
  intros Hall. apply tidy_join. rewrite forallb_forall in Hall.
  apply List.Forall_forall. intros x Hx. apply filter_In in Hx.
  destruct Hx as [Hin Hne]. split; [exact Hne | now apply Hall].
Qed.

Lemma computeFullName_texts (data : gmap string value) (first middle last : string) :
  data !! "firstName" = Some (VStr first) ->
  data !! "middleName" = Some (VStr middle) ->
  data !! "lastName" = Some (VStr last) ->
  computeFullName data = join " " (List.filter nonempty [first; middle; last]).
Proof.
  intros H1 H2 H3. unfold computeFullName, nameParts. rewrite H1, H2, H3.
  destruct first, middle, last; reflexivity.
Qed.

(** C6 (as implemented): after every sequence of actions of the user, hence after
    every edit of a name, the three names are texts and [fullName] is the
    concatenation of the non-empty ones, in the order first, middle, last,
    separated by single spaces; it has no leading, trailing or double space
    provided that no name has one (the names are not trimmed). *)
Theorem C6_fullName_joined
  (validate : gmap string value -> string -> list FormError)
  (calculateAge : string -> number)
  (isAgeInRange : string -> Z -> Z -> bool) (es : list event) :
  forallb offered es = true ->
  let data :=
    formData (run validate calculateAge isAgeInRange (mounted calculateAge) es) in
  exists first middle last : string,
    data !! "firstName" = Some (VStr first)
    /\ data !! "middleName" = Some (VStr middle)
    /\ data !! "lastName" = Some (VStr last)
    /\ data !! "fullName" =
       Some (VStr (join " " (List.filter nonempty [first; middle; last])))
    /\ (forallb tidy [first; middle; last] = true ->
        tidy (join " " (List.filter nonempty [first; middle; last])) = true).
Proof.
  intros Hoff data.
  destruct (session_derived validate calculateAge isAgeInRange es Hoff)
    as (Hsrc & Hfull & _).
  fold data in Hsrc, Hfull.
  destruct (Hsrc "firstName") as [first H1]; [simpl; tauto|].
  destruct (Hsrc "middleName") as [middle H2]; [simpl; tauto|].
  destruct (Hsrc "lastName") as [last H3]; [simpl; tauto|].
  exists first, middle, last.
  rewrite Hfull, (computeFullName_texts data first middle last H1 H2 H3).
  repeat split; try assumption. apply tidy_join_filter.
Qed.

Lemma C6_witness :
  let es := [ EditText "firstName" "Ann"; EditText "middleName" "";
              EditText "lastName" "Lee" ] in
  forallb offered es = true
  /\ exists first middle last : string,
       formData (sampleRun es) !! "firstName" = Some (VStr first)
       /\ formData (sampleRun es) !! "middleName" = Some (VStr middle)
       /\ formData (sampleRun es) !! "lastName" = Some (VStr last)
       /\ formData (sampleRun es) !! "fullName" =
          Some (VStr (join " " (List.filter nonempty [first; middle; last]))).
Proof.
  assert (H : forallb offered
                [ EditText "firstName" "Ann"; EditText "middleName" "";
                  EditText "lastName" "Lee" ] = true) by reflexivity.
  destruct (C6_fullName_joined sampleValidate sampleCalculateAge sampleIsAgeInRange
              _ H) as (first & middle & last & H1 & H2 & H3 & H4 & _).
  exact (conj H (ex_intro _ first (ex_intro _ middle (ex_intro _ last
           (conj H1 (conj H2 (conj H3 H4))))))).
Defined.

(** Typing the names one after the other: the full name follows each edit. *)
Example fullName_follows :
  formData (sampleRun [ EditText "firstName" "Ann" ]) !! "fullName"
  = Some (VStr "Ann")
  /\ formData (sampleRun [ EditText "firstName" "Ann"; EditText "lastName" "Lee" ])
       !! "fullName" = Some (VStr "Ann Lee")
  /\ formData (sampleRun [ EditText "firstName" "Ann"; EditText "lastName" "Lee";
                           EditText "middleName" "B." ])
       !! "fullName" = Some (VStr "Ann B. Lee")
  /\ formData (sampleRun [ EditText "firstName" "Ann"; EditText "lastName" "Lee";
                           EditText "middleName" "B."; EditText "firstName" "" ])
       !! "fullName" = Some (VStr "B. Lee").
Proof. repeat split; vm_compute; reflexivity. Qed.

(** A first name typed with a leading space is kept as it is: the full name
    starts with a space. *)
Lemma C6_counterexample_leading_space :
  let data := formData (sampleRun [ EditText "firstName" " Ann";
                                    EditText "lastName" "Lee" ]) in
  data !! "firstName" = Some (VStr " Ann")
  /\ data !! "fullName" = Some (VStr " Ann Lee")
  /\ startsWithSpace " Ann Lee" = true
  /\ tidy " Ann Lee" = false.
Proof. vm_compute. repeat split; reflexivity. Qed.

(** ** The age *)

Lemma Number_toString_calculateAge (today : FormUtils.Date) (dob : string) :
  Number_toString (FormUtils.calculateAge today dob) = ageText today dob.
Proof.
  unfold FormUtils.calculateAge, ageText, FormUtils.ageOn.
  destruct (FormUtils.parseDate dob); reflexivity.
Qed.

(** C5 (as implemented): at any point of a session, an edit of [dateOfBirth] to a
    non-empty value sets [age] to the text of the whole calendar years
    elapsed (the difference of the years, less one when the birth month and
    day have not yet occurred this year); an edit to the empty string leaves
    [age] at the value it had, it is not cleared. *)
Theorem C5_age_follows_dateOfBirth
  (validate : gmap string value -> string -> list FormError)
  (isAgeInRange : string -> Z -> Z -> bool)
  (today : FormUtils.Date) (es : list event) (v : string) :
  forallb offered es = true ->
  let calc := FormUtils.calculateAge today in
  let st := run validate calc isAgeInRange (mounted calc) es in
  let st' := fst (step validate calc isAgeInRange st (EditText "dateOfBirth" v)) in
  formData st' !! "dateOfBirth" = Some (VStr v)
  /\ formData st' !! "age" =
     (if nonempty v then Some (VStr (ageText today v)) else formData st !! "age").
Proof.
  intros Hoff calc st st'.
  destruct (session_derived validate calc isAgeInRange es Hoff) as (_ & _ & Hage).
  fold st in Hage. subst st'. cbn -[rerender]. split.
  - rewrite rerender_lookup_other by discriminate. apply lookup_insert_eq.
  - rewrite rerender_lookup_age, lookup_insert_eq.
    rewrite lookup_insert_ne by discriminate.
    cbn [ToBoolean ToString]. fold (nonempty v).
    subst calc. rewrite Number_toString_calculateAge.
    case_decide as Hsame; [|reflexivity].
    destruct (nonempty v) eqn:Hv; [|reflexivity].
    rewrite Hsame in Hage. cbn [ToBoolean ToString] in Hage. fold (nonempty v) in Hage.
    rewrite (Hage Hv). now rewrite Number_toString_calculateAge.
Qed.

Lemma C5_witness :
  let es := [ EditText "firstName" "Ann" ] in
  forallb offered es = true
  /\ formData (fst (step sampleValidate sampleCalculateAge sampleIsAgeInRange
                     (sampleRun es) (EditText "dateOfBirth" "2000-06-15")))
       !! "age" = Some (VStr (ageText today "2000-06-15")).
Proof.
  assert (H : forallb offered [ EditText "firstName" "Ann" ] = true) by reflexivity.
  exact (conj H (proj2 (C5_age_follows_dateOfBirth sampleValidate sampleIsAgeInRange
                          today _ "2000-06-15" H))).
Defined.

(** Born on 2000-06-15: 23 on the eve of the birthday in 2024, 24 on the
    day. *)
Example ageText_birthday :
  ageText {| FormUtils.year := 2024; FormUtils.month := 6; FormUtils.day := 14 |}
          "2000-06-15" = "23"
  /\ ageText {| FormUtils.year := 2024; FormUtils.month := 6; FormUtils.day := 15 |}
             "2000-06-15" = "24".
Proof. split; vm_compute; reflexivity. Qed.

(** After the date of birth is emptied, the age computed from the previous
    date is still there. *)
Lemma C5_counterexample_stale_age :
  let data := formData (sampleRun [ EditText "dateOfBirth" "2000-06-15";
                                    EditText "dateOfBirth" "" ]) in
  data !! "dateOfBirth" = Some (VStr "")
  /\ data !! "age" = Some (VStr "24").
Proof. vm_compute. split; reflexivity. Qed.

(** ** More on the inline word counter *)

Lemma inlineWordCount_runs (s : string) :
  inlineWordCount s = FormUtils.count_runs false s.
Proof.
  unfold inlineWordCount. destruct (nonempty s) eqn:Hs.
  - unfold split_ws. rewrite split_ws_from_count by discriminate.
    simpl. apply count_runs_trim.
  - destruct s; [reflexivity | discriminate].
Qed.

Lemma count_runs_blank (s : string) :
  FormUtils.count_runs false s = 0 <-> allChars is_space s = true.
Proof.
  induction s as [|c s IH]; simpl; [tauto|].
  destruct (is_space c); simpl; [exact IH|].
  split; [lia | discriminate].
Qed.

(** The counter shows 0 exactly for the texts made of white space only, the
    empty text among them. *)
Theorem inlineWordCount_zero_iff_blank (s : string) :
  inlineWordCount s = 0 <-> allChars is_space s = true.
Proof. rewrite inlineWordCount_runs. apply count_runs_blank. Qed.

Lemma count_runs_app_space (s t : string) (c : ascii) :
  is_space c = true ->
  forall in_word,
    FormUtils.count_runs in_word (s ++ String c t) =
    FormUtils.count_runs in_word s + FormUtils.count_runs false t.
Proof.
  intros Hc. induction s as [|a s IH]; intros in_word.
  - change ("" ++ String c t) with (String c t). simpl. now rewrite Hc.
  - change (String a s ++ String c t) with (String a (s ++ String c t)).
    simpl. destruct (is_space a); rewrite IH; lia.
Qed.

(** Two texts put together with a white-space character between them have
    the words of both: the counts add up. *)
Theorem inlineWordCount_separated (s t : string) (c : ascii) :
  is_space c = true ->
  inlineWordCount (s ++ String c t) = inlineWordCount s + inlineWordCount t.
Proof.
  intros Hc. rewrite !inlineWordCount_runs. now apply count_runs_app_space.
Qed.

Lemma inlineWordCount_separated_witness :
  is_space " " = true
  /\ inlineWordCount ("to win" ++ String " " "and to inspire") =
     inlineWordCount "to win" + inlineWordCount "and to inspire".
Proof.
  exact (conj eq_refl
           (inlineWordCount_separated "to win" "and to inspire" " " eq_refl)).
Defined.

Lemma count_runs_in_word (s : string) :
  FormUtils.count_runs true s <= FormUtils.count_runs false s
  /\ FormUtils.count_runs false s <= S (FormUtils.count_runs true s).
Proof. destruct s as [|c s]; simpl; [lia|]. destruct (is_space c); lia. Qed.

Lemma count_runs_app (s t : string) :
  forall in_word,
    exists after : bool,
      FormUtils.count_runs in_word (s ++ t) =
      FormUtils.count_runs in_word s + FormUtils.count_runs after t.
Proof.
  induction s as [|a s IH]; intros in_word.
  - exists in_word. reflexivity.
  - change (String a s ++ t) with (String a (s ++ t)). simpl.
    destruct (is_space a).
    + destruct (IH false) as [after H]. exists after. exact H.
    + destruct (IH true) as [after H]. exists after. rewrite H. lia.
Qed.

(** Gluing two texts without a separator loses at most one word (the last
    word of the first and the first word of the second may merge) and never
    adds one. *)
Theorem inlineWordCount_app_bounds (s t : string) :
  inlineWordCount (s ++ t) <= inlineWordCount s + inlineWordCount t
  /\ inlineWordCount s + inlineWordCount t <= S (inlineWordCount (s ++ t)).
Proof.
  rewrite !inlineWordCount_runs.
  destruct (count_runs_app s t false) as [after H]. rewrite H.
  pose proof (count_runs_in_word t) as [H1 H2].
  destruct after; lia.
Qed.

Lemma count_runs_length (s : string) :
  2 * FormUtils.count_runs true s <= String.length s
  /\ 2 * FormUtils.count_runs false s <= S (String.length s).
Proof.
  induction s as [|c s [IHt IHf]]; simpl; [lia|].
  destruct (is_space c); lia.
Qed.

(** A text of n characters has at most (n + 1) / 2 words. *)
Theorem inlineWordCount_length_bound (s : string) :
  2 * inlineWordCount s <= S (String.length s).
Proof. rewrite inlineWordCount_runs. apply count_runs_length. Qed.



(** A text of 501 words in 1002 characters passes the schema. *)
Example longTextAccepted_501_words :
  DirectorApplicationForm.longTextAccepted (wordsText 501) = true
  /\ inlineWordCount (wordsText 501) = 501.
Proof. split; vm_compute; reflexivity. Qed.

(** ** What the view reads of the errors *)

Lemma find_existsb {A : Type} (p : A -> bool) (l : list A) :
  existsb p l = true <-> exists x, List.find p l = Some x.
Proof.
  induction l as [|a l IH]; simpl.
  - split; [discriminate | intros [x H]; discriminate].
  - destruct (p a); simpl; [|exact IH].
    split; [intros _; now exists a | reflexivity].
Qed.

(** A field is marked in error exactly when a message is found for it, and
    the message found is that of the first error of the list that names the
    field. *)
Theorem hasError_getErrorMessage (st : FormState) (fieldName : string) :
  (hasError st fieldName = true <->
   exists text : string, getErrorMessage st fieldName = Some text)
  /\ (forall text : string,
        getErrorMessage st fieldName = Some text ->
        exists (k : nat) (e : FormError),
          errors st !! k = Some e /\ field e = fieldName /\ message e = text
          /\ forall (j : nat) (e' : FormError),
               (j < k)%nat -> errors st !! j = Some e' -> field e' <> fieldName).
Proof.
  unfold hasError, getErrorMessage. split.
  - rewrite find_existsb. split.
    + intros [e He]. exists (message e). now rewrite He.
    + intros [text H]. destruct (List.find _ (errors st)) as [e|]; [now exists e|].
      discriminate H.
  - intros text H.
    destruct (List.find _ (errors st)) as [e|] eqn:Hfind; [|discriminate H].
    injection H as <-.
    destruct (find_first _ _ _ Hfind) as (k & Hk & Hp & Hfirst).
    exists k, e. repeat split; [exact Hk | now apply String.eqb_eq |].
    intros j e' Hj He'. apply String.eqb_neq. now apply (Hfirst j e').
Qed.

(** ** Starting the submission *)

Section SubmitMore.

Variable validate : gmap string value -> string -> list FormError.

Lemma concat_nil_all {A : Type} (ls : list (list A)) :
  concat ls = [] -> forall l, In l ls -> l = [].
Proof.
  induction ls as [|l0 ls IH]; simpl; intros H l Hl; [destruct Hl|].
  apply app_eq_nil in H. destruct H as [H0 H1].
  destruct Hl as [<-|Hl]; [exact H0 | now apply IH].
Qed.

Lemma combinedErrors_nil (st : FormState) :
  combinedErrors validate st = [] <->
  agreeTerms st = true
  /\ forall sid : string,
       In sid validatedSections -> validate (formData st) sid = [].
Proof.
  unfold combinedErrors. split.
  - intros H. apply app_eq_nil in H. destruct H as [Hc Ht].
    split; [destruct (agreeTerms st); [reflexivity | discriminate Ht]|].
    intros sid Hsid. apply (concat_nil_all _ Hc). apply in_map_iff. now exists sid.
  - intros [Ht Hall]. rewrite Ht, app_nil_r. apply concat_all_nil.
    intros l Hl. apply in_map_iff in Hl. destruct Hl as (sid & <- & Hsid).
    now apply Hall.
Qed.

Lemma handleSubmit_combined (st : FormState) :
  handleSubmit validate st =
  let allErrors := combinedErrors validate st in
  let st1 := setErrors allErrors st in
  if (length allErrors =? 0)%nat then (setIsSubmitting true st1, [SetTimeout 2000])
  else
    match List.find (reportsFailingField validate (formData st) allErrors)
            formSections with
    | Some firstErrorSection =>
        if negb (String.eqb (id firstErrorSection) (currentSection st))
        then (setCurrentSection (id firstErrorSection) st1, [submitErrorToast])
        else (st1, [])
    | None => (st1, [])
    end.
Proof.
  unfold handleSubmit. rewrite collectErrors_concat.
  replace (if negb (agreeTerms st)
           then (concat (map (validate (formData st)) validatedSections)
                 ++ [termsError])%list
           else concat (map (validate (formData st)) validatedSections))
    with (combinedErrors validate st)
    by (unfold combinedErrors; destruct (agreeTerms st); cbn [negb];
        rewrite ?app_nil_r; reflexivity).
  reflexivity.
Qed.

End SubmitMore.

(** [handleSubmit] starts the simulated submission (the two-second timer)
    exactly when the terms are agreed and every validated section is free of
    errors; it then empties the displayed errors, sets [isSubmitting] and
    leaves the section and the record as they are. *)
Theorem handleSubmit_starts_iff
  (validate : gmap string value -> string -> list FormError) (st : FormState) :
  (In (SetTimeout 2000) (snd (handleSubmit validate st)) <->
   agreeTerms st = true
   /\ forall sid : string,
        In sid validatedSections -> validate (formData st) sid = [])
  /\ (In (SetTimeout 2000) (snd (handleSubmit validate st)) ->
      handleSubmit validate st =
      (setIsSubmitting true (setErrors [] st), [SetTimeout 2000])).
Proof.
  rewrite <- combinedErrors_nil, handleSubmit_combined. cbv zeta.
  destruct (combinedErrors validate st) as [|e l] eqn:Hall; cbn [length Nat.eqb].
  - split; [split; [reflexivity | intros _; left; reflexivity] | reflexivity].
  - assert (Hno : ~ In (SetTimeout 2000)
        (snd (match List.find (reportsFailingField validate (formData st) (e :: l))
                      formSections with
              | Some firstErrorSection =>
                  if negb (String.eqb (id firstErrorSection) (currentSection st))
                  then (setCurrentSection (id firstErrorSection)
                          (setErrors (e :: l) st), [submitErrorToast])
                  else (setErrors (e :: l) st, [])
              | None => (setErrors (e :: l) st, [])
              end))).
    { repeat case_match; simpl; intros Hin; try tauto.
      destruct Hin as [Hin|[]]. discriminate Hin. }
    split; [split; [intros Hin; now elim Hno | discriminate]
           | intros Hin; now elim Hno].
Qed.

(** Without the terms agreed, [handleSubmit] always marks the field [terms]
    in error and never starts the submission, whatever the record. *)
Theorem handleSubmit_flags_terms
  (validate : gmap string value -> string -> list FormError) (st : FormState) :
  agreeTerms st = false ->
  hasError (fst (handleSubmit validate st)) "terms" = true
  /\ ~ In (SetTimeout 2000) (snd (handleSubmit validate st))
  /\ isSubmitting (fst (handleSubmit validate st)) = isSubmitting st.
Proof.
  intros Hterms.
  destruct (handleSubmit_errors validate st) as [Herr _].
  split; [|split].
  - unfold hasError. rewrite Herr. unfold combinedErrors. rewrite Hterms.
    rewrite existsb_app. apply orb_true_iff. right. reflexivity.
  - rewrite handleSubmit_combined. cbv zeta.
    assert (Hne : combinedErrors validate st <> []).
    { intros H. apply combinedErrors_nil in H. destruct H as [Ht _]. congruence. }
    destruct (combinedErrors validate st) as [|e l]; [now elim Hne|].
    cbn [length Nat.eqb]. repeat case_match; simpl; intros Hin; try tauto.
    destruct Hin as [Hin|[]]. discriminate Hin.
  - rewrite handleSubmit_combined. cbv zeta.
    assert (Hne : combinedErrors validate st <> []).
    { unfold combinedErrors. rewrite Hterms. intros H.
      apply app_eq_nil in H. destruct H as [_ H]. discriminate H. }
    destruct (combinedErrors validate st) as [|e l]; [now elim Hne|].
    cbn [length Nat.eqb]. repeat case_match; reflexivity.
Qed.

Lemma handleSubmit_flags_terms_witness :
  agreeTerms (stateAt "review" completeRecord false) = false
  /\ hasError (fst (handleSubmit sampleValidate
                      (stateAt "review" completeRecord false))) "terms" = true.
Proof.
  exact (conj eq_refl
           (proj1 (handleSubmit_flags_terms sampleValidate
                     (stateAt "review" completeRecord false) eq_refl))).
Defined.

Lemma handleSubmit_first_failing_witness :
  let st := stateAt "review" incompleteRecord true in
  currentSection st = "review"
  /\ In contactSection formSections
  /\ id contactSection <> "review"
  /\ reportsFailingField sampleValidate (formData st)
       (combinedErrors sampleValidate st) contactSection = true
  /\ errors (fst (handleSubmit sampleValidate st)) = combinedErrors sampleValidate st.
Proof.
  assert (H1 : currentSection (stateAt "review" incompleteRecord true) = "review")
    by reflexivity.
  assert (H2 : In contactSection formSections) by (simpl; tauto).
  assert (H3 : id contactSection <> "review") by discriminate.
  assert (H4 : reportsFailingField sampleValidate
                 (formData (stateAt "review" incompleteRecord true))
                 (combinedErrors sampleValidate (stateAt "review" incompleteRecord true))
                 contactSection = true) by (vm_compute; reflexivity).
  refine (conj H1 (conj H2 (conj H3 (conj H4 _)))).
  exact (proj1 (handleSubmit_first_failing sampleValidate
                  (stateAt "review" incompleteRecord true) contactSection
                  H1 H2 H3 H4)).
Defined.

(** ** The navigation bar and the order of the sections, continued *)

(** A click on the button of the section at index [j], the active section
    being at index [i]: the section of the button becomes active when [j] is
    at most [i], nothing happens otherwise; errors, record and flags are left
    as they are in both cases. *)
Theorem sectionButtonClick_by_index
  (st : FormState) (i j : nat) (current target : FormSection) :
  formSections !! i = Some current ->
  formSections !! j = Some target ->
  currentSection st = id current ->
  sectionButtonClick j st =
  (if (j <=? i)%nat then setCurrentSection (id target) st else st)
  /\ errors (sectionButtonClick j st) = errors st
  /\ formData (sectionButtonClick j st) = formData st.
Proof.
  intros Hi Hj Hcur.
  assert (Heq : sectionButtonClick j st =
                if (j <=? i)%nat then setCurrentSection (id target) st else st).
  { destruct (j <=? i)%nat eqn:Hle.
    - apply Nat.leb_le in Hle.
      now apply (sectionButtonClick_backward_accepted st i j current target).
    - apply Nat.leb_gt in Hle.
      now apply (sectionButtonClick_forward_rejected st i j current). }
  rewrite Heq. split; [reflexivity|]. destruct (j <=? i)%nat; split; reflexivity.
Qed.

Lemma sectionButtonClick_by_index_witness :
  formSections !! 6%nat = Some photosSection
  /\ formSections !! 1%nat = Some contactSection
  /\ currentSection (stateAt "photos" completeRecord true) = id photosSection
  /\ sectionButtonClick 1 (stateAt "photos" completeRecord true) =
     stateAt "contact" completeRecord true.
Proof.
  exact (conj eq_refl (conj eq_refl (conj eq_refl
           (proj1 (sectionButtonClick_by_index
                     (stateAt "photos" completeRecord true) 6 1
                     photosSection contactSection eq_refl eq_refl eq_refl))))).
Defined.

Lemma at_index_In {A : Type} (xs : list A) (z : Z) (x : A) :
  at_index xs z = Some x -> In x xs.
Proof.
  unfold at_index. destruct (z <? 0)%Z; [discriminate|].
  intros H. apply list_elem_of_In. eapply list_elem_of_lookup_2. exact H.
Qed.

Section ActiveSection.

Variable validate : gmap string value -> string -> list FormError.
Variable calculateAge : string -> number.
Variable isAgeInRange : string -> Z -> Z -> bool.

Lemma step_knownSection (st : FormState) (e : event) :
  offered e = true ->
  knownSection st ->
  knownSection (fst (step validate calculateAge isAgeInRange st e)).
Proof.
  intros Hoff Hst.
  destruct e as [f v|f b|f files| | | |index|v| |]; cbn -[rerender formSections].
  - exact Hst.
  - exact Hst.
  - unfold handleFileChange. repeat case_match; exact Hst.
  - exact Hst.
  - unfold nextButtonClick. case_match; [|exact Hst].
    rewrite handleNext_split. unfold afterValidation. cbv zeta.
    repeat case_match; try exact Hst.
    match goal with H : at_index _ _ = Some ?s |- _ =>
      exists s; split; [exact (at_index_In _ _ _ H) | reflexivity] end.
  - unfold previousButtonClick, handlePrevious. repeat case_match; try exact Hst.
    match goal with H : at_index _ _ = Some ?s |- _ =>
      exists s; split; [exact (at_index_In _ _ _ H) | reflexivity] end.
  - unfold sectionButtonClick. repeat case_match; try exact Hst.
    match goal with H : formSections !! _ = Some ?s |- _ =>
      exists s; split; [|reflexivity];
      apply list_elem_of_In; eapply list_elem_of_lookup_2; exact H end.
  - cbn [offered] in Hoff. unfold mem in Hoff. apply existsb_exists in Hoff.
    destruct Hoff as (sid & Hin & Heq). apply String.eqb_eq in Heq. subst sid.
    apply in_map_iff in Hin. destruct Hin as (s & Hs & Hin).
    exists s. split; [exact Hin | now symmetry].
  - unfold submitButtonClick. repeat case_match; try exact Hst.
    rewrite handleSubmit_combined. cbv zeta. repeat case_match; try exact Hst.
    match goal with H : List.find _ formSections = Some ?s |- _ =>
      exists s; split; [exact (proj1 (find_some _ _ H)) | reflexivity] end.
  - exact Hst.
Qed.

Lemma run_knownSection (es : list event) :
  forall st : FormState,
    forallb offered es = true ->
    knownSection st ->
    knownSection (run validate calculateAge isAgeInRange st es).
Proof.
  induction es as [|e es IH]; intros st Hoff Hst; [exact Hst|].
  simpl in Hoff. apply andb_prop in Hoff. destruct Hoff as [He Hes].
  cbn [run]. apply IH; [exact Hes|]. now apply step_knownSection.
Qed.

End ActiveSection.

(** Along every session the active section is one of the eleven sections:
    the index the handlers look up is never -1. *)
Theorem currentSection_always_known
  (validate : gmap string value -> string -> list FormError)
  (calculateAge : string -> number)
  (isAgeInRange : string -> Z -> Z -> bool) (es : list event) :
  forallb offered es = true ->
  let st := run validate calculateAge isAgeInRange (mounted calculateAge) es in
  exists (i : nat) (section : FormSection),
    formSections !! i = Some section
    /\ currentSection st = id section
    /\ findIndex (is_section (currentSection st)) formSections = Z.of_nat i.
Proof.
  intros Hoff st.
  assert (Hk : knownSection st).
  { apply run_knownSection; [exact Hoff|].
    exists eligibilitySection. split; [simpl; tauto | reflexivity]. }
  destruct Hk as (section & Hin & Hcur).
  apply list_elem_of_In, list_elem_of_lookup in Hin. destruct Hin as [i Hi].
  exists i, section. repeat split; [exact Hi | exact Hcur |].
  rewrite Hcur. now apply findIndex_formSections.
Qed.

Lemma currentSection_always_known_witness :
  forallb offered contactAttempt = true
  /\ exists (i : nat) (section : FormSection),
       formSections !! i = Some section
       /\ currentSection (sampleRun contactAttempt) = id section
       /\ findIndex (is_section (currentSection (sampleRun contactAttempt)))
            formSections = Z.of_nat i.
Proof.
  exact (conj eq_refl
           (currentSection_always_known sampleValidate sampleCalculateAge
              sampleIsAgeInRange contactAttempt eq_refl)).
Defined.

(** ** What an edit touches *)

(** A text typed into a field reaches that field, and no other field of the
    record changes, with two exceptions: [fullName] may change when a name is
    edited and [age] may change when the date of birth is edited. *)
Theorem handleFieldChange_frame
  (calculateAge : string -> number) (f v g : string) (st : FormState) :
  f <> "fullName" ->
  f <> "age" ->
  g <> f ->
  (g = "fullName" -> ~ In f ["firstName"; "middleName"; "lastName"]) ->
  (g = "age" -> f <> "dateOfBirth") ->
  let st' := withEffects calculateAge (handleFieldChange f v) st in
  formData st' !! f = Some (VStr v)
  /\ formData st' !! g = formData st !! g.
Proof.
  intros Hf1 Hf2 Hg Hfull Hage. cbn -[rerender]. split.
  - rewrite rerender_lookup_other by assumption. apply lookup_insert_eq.
  - destruct (decide (g = "fullName")) as [->|Hgf].
    + rewrite rerender_lookup_fullName.
      assert (Hparts : nameParts (formData st)
                       = nameParts (<[f := VStr v]> (formData st))).
      { unfold nameParts. specialize (Hfull eq_refl). simpl in Hfull.
        rewrite !lookup_insert_ne by (intros ->; tauto). reflexivity. }
      rewrite decide_True by exact Hparts.
      apply lookup_insert_ne. congruence.
    + destruct (decide (g = "age")) as [->|Hga].
      * rewrite rerender_lookup_age.
        rewrite (lookup_insert_ne _ f "dateOfBirth") by (now apply Hage).
        rewrite decide_True by reflexivity.
        apply lookup_insert_ne. congruence.
      * rewrite rerender_lookup_other by assumption.
        apply lookup_insert_ne. congruence.
Qed.

Lemma handleFieldChange_frame_witness :
  let st := stateAt "contact" completeRecord true in
  let st' := withEffects sampleCalculateAge (handleFieldChange "email" "a@b.org") st in
  "email" <> "fullName"
  /\ "email" <> "age"
  /\ "fullName" <> "email"
  /\ formData st' !! "email" = Some (VStr "a@b.org")
  /\ formData st' !! "fullName" = formData st !! "fullName".
Proof.
  assert (H1 : "email" <> "fullName") by discriminate.
  assert (H2 : "email" <> "age") by discriminate.
  assert (H3 : "fullName" <> "email") by discriminate.
  assert (H4 : "fullName" = "fullName" ->
               ~ In "email" ["firstName"; "middleName"; "lastName"]).
  { intros _ H. simpl in H. intuition discriminate. }
  assert (H5 : "fullName" = "age" -> "email" <> "dateOfBirth") by discriminate.
  destruct (handleFieldChange_frame sampleCalculateAge "email" "a@b.org" "fullName"
              (stateAt "contact" completeRecord true) H1 H2 H3 H4 H5) as [Ha Hb].
  exact (conj H1 (conj H2 (conj H3 (conj Ha Hb)))).
Defined.

(** ** "Next" and then "Previous" *)

Lemma handleNext_success
  (validate : gmap string value -> string -> list FormError)
  (isAgeInRange : string -> Z -> Z -> bool)
  (st : FormState) (i : nat) (section next : FormSection) :
  formSections !! i = Some section ->
  formSections !! S i = Some next ->
  currentSection st = id section ->
  (validate (formData st) (id section) ++ ageCheck isAgeInRange st)%list = [] ->
  handleNext validate isAgeInRange st = setCurrentSection (id next) (setErrors [] st).
Proof.
  intros Hi Hnext Hcur Hnil.
  rewrite handleNext_split, Hcur, Hnil. unfold afterValidation.
  rewrite Hcur, (findIndex_formSections i section Hi).
  assert (Hlt : (Z.of_nat i <? Z.of_nat (length formSections) - 1)%Z = true).
  { apply Z.ltb_lt. apply formSections_bound in Hnext. simpl. lia. }
  cbn [length Nat.eqb]. rewrite Hlt.
  replace (Z.of_nat i + 1)%Z with (Z.of_nat (S i)) by lia.
  now rewrite at_index_of_nat, Hnext.
Qed.

(** When a section passes, "Next" followed by "Previous" comes back to it:
    the wizard is as before, except that the displayed errors are now
    empty. *)
Theorem handleNext_then_handlePrevious
  (validate : gmap string value -> string -> list FormError)
  (isAgeInRange : string -> Z -> Z -> bool)
  (st : FormState) (i : nat) (section next : FormSection) :
  formSections !! i = Some section ->
  formSections !! S i = Some next ->
  currentSection st = id section ->
  (validate (formData st) (id section) ++ ageCheck isAgeInRange st)%list = [] ->
  handlePrevious (handleNext validate isAgeInRange st) = setErrors [] st.
Proof.
  intros Hi Hnext Hcur Hnil.
  rewrite (handleNext_success validate isAgeInRange st i section next Hi Hnext Hcur Hnil).
  unfold handlePrevious. cbn [currentSection setCurrentSection].
  rewrite (findIndex_formSections (S i) next Hnext).
  assert (Hpos : (0 <? Z.of_nat (S i))%Z = true) by (apply Z.ltb_lt; lia).
  rewrite Hpos. replace (Z.of_nat (S i) - 1)%Z with (Z.of_nat i) by lia.
  rewrite at_index_of_nat, Hi. unfold setCurrentSection, setErrors. simpl.
  rewrite <- Hcur. reflexivity.
Qed.

Lemma handleNext_then_handlePrevious_witness :
  let st := stateAt "business" completeRecord true in
  formSections !! 5%nat = Some businessSection
  /\ formSections !! 6%nat = Some photosSection
  /\ currentSection st = id businessSection
  /\ (sampleValidate (formData st) (id businessSection)
      ++ ageCheck sampleIsAgeInRange st)%list = []
  /\ handlePrevious (handleNext sampleValidate sampleIsAgeInRange st) = setErrors [] st.
Proof.
  assert (H : (sampleValidate (formData (stateAt "business" completeRecord true))
                 (id businessSection)
               ++ ageCheck sampleIsAgeInRange
                    (stateAt "business" completeRecord true))%list = [])
    by (vm_compute; reflexivity).
  exact (conj eq_refl (conj eq_refl (conj eq_refl (conj H
           (handleNext_then_handlePrevious sampleValidate sampleIsAgeInRange
              (stateAt "business" completeRecord true) 5
              businessSection photosSection eq_refl eq_refl eq_refl H))))).
Defined.

(** ** The director form *)

(** One click on "Next" of the director form moves exactly one step forward
    when the fields of the section pass the validation (scrolling to the top,
    with the progress bar growing, and one "Previous" leading back); otherwise,
    and always on the last section, the section stays and exactly one error
    toast is issued.  No section is ever skipped. *)
Theorem goToNextSection_one_step
  (trigger : list string -> bool) (s : DirectorApplicationForm.SectionId) :
  let result := DirectorApplicationForm.goToNextSection trigger s in
  if DirectorApplicationForm.nextRendered s
     && trigger (DirectorApplicationForm.sectionFields s)
  then
    snd result = [DirectorApplicationForm.ScrollToTop]
    /\ fst (DirectorApplicationForm.goToPrevSection (fst result)) = s
    /\ fst result <> s
    /\ (DirectorApplicationForm.progressWidth s
        < DirectorApplicationForm.progressWidth (fst result))%Z
  else
    fst result = s
    /\ snd result =
       [DirectorApplicationForm.ToastError "Please fix the errors before continuing"].
Proof.
  unfold DirectorApplicationForm.goToNextSection.
  destruct s; cbn [DirectorApplicationForm.nextRendered
                   DirectorApplicationForm.sectionFields andb]; cbv zeta;
    match goal with
    | |- context [trigger ?l] => destruct (trigger l)
    | _ => idtac
    end; cbn;
    first [ split; reflexivity
          | repeat split; try reflexivity; try discriminate ].
Qed.

(** On every section where "Previous" is rendered it moves one step back,
    and a "Next" that passes the validation of the section reached leads
    forward again to where one was. *)
Theorem goToPrevSection_then_next
  (trigger : list string -> bool) (s : DirectorApplicationForm.SectionId) :
  DirectorApplicationForm.previousRendered s = true ->
  trigger (DirectorApplicationForm.sectionFields
             (fst (DirectorApplicationForm.goToPrevSection s))) = true ->
  fst (DirectorApplicationForm.goToPrevSection s) <> s
  /\ fst (DirectorApplicationForm.goToNextSection trigger
            (fst (DirectorApplicationForm.goToPrevSection s))) = s.
Proof.
  intros Hr Ht. unfold DirectorApplicationForm.goToNextSection.
  destruct s; try discriminate Hr; cbn in Ht |- *; rewrite Ht; cbn;
    (split; [discriminate | reflexivity]).
Qed.

Lemma goToPrevSection_then_next_witness :
  DirectorApplicationForm.previousRendered DirectorApplicationForm.business = true
  /\ (fun _ : list string => true)
       (DirectorApplicationForm.sectionFields
          (fst (DirectorApplicationForm.goToPrevSection
                  DirectorApplicationForm.business))) = true
  /\ fst (DirectorApplicationForm.goToNextSection (fun _ => true)
            (fst (DirectorApplicationForm.goToPrevSection
                    DirectorApplicationForm.business)))
     = DirectorApplicationForm.business.
Proof.
  exact (conj eq_refl (conj eq_refl
           (proj2 (goToPrevSection_then_next (fun _ => true)
                     DirectorApplicationForm.business eq_refl eq_refl)))).
Defined.

(** ** The payment form *)

Lemma allChars_keepChars (p : ascii -> bool) (s : string) :
  allChars p (keepChars p s) = true.
Proof.
  induction s as [|c s IH]; [reflexivity|]. simpl.
  destruct (p c) eqn:Hc; [simpl; now rewrite Hc | exact IH].
Qed.









Section Payment.

Variable validatePaymentForm : PaymentForm.PaymentData -> list FormError.
Variable formatCardNumber : string -> string.
Variable formatExpiryDate : string -> string.
Variable isPositiveNumber : string -> bool.

(** What the inputs keep true of the CVV and of the amount. *)
Lemma payment_step_keeps (st : PaymentForm.State) (e : PaymentForm.event) :
  let st' := fst (PaymentForm.step validatePaymentForm formatCardNumber
                    formatExpiryDate isPositiveNumber st e) in
  (allChars is_digit (PaymentForm.cvv st) = true ->
   allChars is_digit (PaymentForm.cvv st') = true)
  /\ ((String.length (PaymentForm.cvv st) <= 4)%nat ->
      (String.length (PaymentForm.cvv st') <= 4)%nat)
  /\ (amountPattern (PaymentForm.amount st) = true ->
      amountPattern (PaymentForm.amount st') = true).
Proof.
  destruct e; cbn -[amountPattern]; try tauto.
  - unfold PaymentForm.handleAmountChange.
    destruct (amountPattern _) eqn:Hp; cbn -[amountPattern]; tauto.
  - unfold PaymentForm.handleExpiryDateChange. case_match; cbn -[amountPattern]; tauto.
  - unfold PaymentForm.handleCVVChange.
    destruct (String.length _ <=? 4)%nat eqn:Hl; cbn -[amountPattern]; [|tauto].
    apply Nat.leb_le in Hl. repeat split; try tauto.
    intros _. apply allChars_keepChars.
  - unfold PaymentForm.payButtonClick, PaymentForm.handleSubmit.
    repeat case_match; cbn -[amountPattern]; tauto.
Qed.

Lemma payment_run_keeps (es : list PaymentForm.event) :
  forall st : PaymentForm.State,
    allChars is_digit (PaymentForm.cvv st) = true ->
    (String.length (PaymentForm.cvv st) <= 4)%nat ->
    amountPattern (PaymentForm.amount st) = true ->
    let st' := PaymentForm.run validatePaymentForm formatCardNumber
                 formatExpiryDate isPositiveNumber st es in
    allChars is_digit (PaymentForm.cvv st') = true
    /\ (String.length (PaymentForm.cvv st') <= 4)%nat
    /\ amountPattern (PaymentForm.amount st') = true.
Proof.
  induction es as [|e es IH]; intros st H1 H2 H3; [now repeat split|].
  cbn [PaymentForm.run]. destruct (payment_step_keeps st e) as (K1 & K2 & K3).
  apply IH; [now apply K1 | now apply K2 | now apply K3].
Qed.

End Payment.

(** Whatever is typed and clicked on the payment form, the stored CVV holds
    digits only, four at most. *)
Theorem payment_cvv_digits
  (validatePaymentForm : PaymentForm.PaymentData -> list FormError)
  (formatCardNumber formatExpiryDate : string -> string)
  (isPositiveNumber : string -> bool) (es : list PaymentForm.event) :
  let st := PaymentForm.run validatePaymentForm formatCardNumber formatExpiryDate
              isPositiveNumber PaymentForm.initialState es in
  allChars is_digit (PaymentForm.cvv st) = true
  /\ (String.length (PaymentForm.cvv st) <= 4)%nat.
Proof.
  destruct (payment_run_keeps validatePaymentForm formatCardNumber formatExpiryDate
              isPositiveNumber es PaymentForm.initialState)
    as (H1 & H2 & _); [reflexivity | simpl; lia | reflexivity |].
  split; assumption.
Qed.



Section PaymentSubmit.

Variable validatePaymentForm : PaymentForm.PaymentData -> list FormError.
Variable isPositiveNumber : string -> bool.

Lemma length_zero_nil {A : Type} (l : list A) : (length l =? 0)%nat = true <-> l = [].
Proof. destruct l; simpl; split; congruence. Qed.

Lemma bankErrors_nil (st : PaymentForm.State) :
  ((if PaymentForm.blank (PaymentForm.bankName st)
    then [PaymentForm.bankNameRequired] else [])
   ++ (if PaymentForm.blank (PaymentForm.accountNumber st)
       then [PaymentForm.accountNumberRequired] else [])
   ++ (if PaymentForm.blank (PaymentForm.routingNumber st)
       then [PaymentForm.routingNumberRequired] else []))%list = []
  <-> PaymentForm.blank (PaymentForm.bankName st) = false
      /\ PaymentForm.blank (PaymentForm.accountNumber st) = false
      /\ PaymentForm.blank (PaymentForm.routingNumber st) = false.
Proof.
  destruct (PaymentForm.blank (PaymentForm.bankName st)),
           (PaymentForm.blank (PaymentForm.accountNumber st)),
           (PaymentForm.blank (PaymentForm.routingNumber st)); simpl;
    split; try discriminate; try tauto; intros (? & ? & ?); discriminate.
Qed.

End PaymentSubmit.

Lemma payment_starts_when
  (validatePaymentForm : PaymentForm.PaymentData -> list FormError)
  (isPositiveNumber : string -> bool) (st : PaymentForm.State) :
  In (PaymentForm.SetTimeout 2000)
     (snd (PaymentForm.handleSubmit validatePaymentForm isPositiveNumber st))
  <->
  PaymentForm.blank (PaymentForm.amount st) = false
  /\ isPositiveNumber (PaymentForm.amount st) = true
  /\ match PaymentForm.paymentMethod st with
     | PaymentForm.card =>
         validatePaymentForm
           {| PaymentForm.pd_cardNumber := PaymentForm.cardNumber st;
              PaymentForm.pd_expiryDate := PaymentForm.expiryDate st;
              PaymentForm.pd_cvv := PaymentForm.cvv st;
              PaymentForm.pd_name := PaymentForm.name st |} = []
     | PaymentForm.paypal => PaymentForm.blank (PaymentForm.emailAddress st) = false
     | PaymentForm.bank =>
         PaymentForm.blank (PaymentForm.bankName st) = false
         /\ PaymentForm.blank (PaymentForm.accountNumber st) = false
         /\ PaymentForm.blank (PaymentForm.routingNumber st) = false
     end.
Proof.
  unfold PaymentForm.handleSubmit.
  destruct (PaymentForm.blank (PaymentForm.amount st)); cbn [length Nat.ltb Nat.leb].
  { simpl. split; [intros [H|[]]; discriminate H | intros [H _]; discriminate H]. }
  destruct (isPositiveNumber (PaymentForm.amount st)); cbn [negb length Nat.ltb Nat.leb].
  2:{ simpl. split; [intros [H|[]]; discriminate H | intros (_ & H & _); discriminate H]. }
  cbv zeta. destruct (PaymentForm.paymentMethod st).
  - cbn [app length Nat.eqb andb]. rewrite andb_true_r.
    destruct (validatePaymentForm _) as [|e l]; simpl.
    + split; [intros _; repeat split | intros _; right; left; reflexivity].
    + split; [intros [H|[]]; discriminate H | intros (_ & _ & H); discriminate H].
  - destruct (PaymentForm.blank (PaymentForm.emailAddress st)); simpl.
    + split; [intros [H|[]]; discriminate H | intros (_ & _ & H); discriminate H].
    + split; [intros _; repeat split | intros _; right; left; reflexivity].
  - rewrite <- bankErrors_nil. cbn [app length Nat.eqb andb]. rewrite andb_true_r.
    match goal with |- context [(length ?errs =? 0)%nat] => destruct errs as [|e l] end;
      simpl.
    + split; [intros _; repeat split | intros _; right; left; reflexivity].
    + split; [intros [H|[]]; discriminate H | intros (_ & _ & H); discriminate H].
Qed.

(** The payment form starts the simulated payment exactly when the amount is
    filled in and above 0 and the fields of the chosen method are in order:
    no error from [validatePaymentForm] for a card, an address for PayPal, the
    three bank fields for a transfer. *)
Theorem payment_starts_iff
  (validatePaymentForm : PaymentForm.PaymentData -> list FormError)
  (isPositiveNumber : string -> bool) (st : PaymentForm.State) :
  In (PaymentForm.SetTimeout 2000)
     (snd (PaymentForm.handleSubmit validatePaymentForm isPositiveNumber st))
  <->
  PaymentForm.blank (PaymentForm.amount st) = false
  /\ isPositiveNumber (PaymentForm.amount st) = true
  /\ match PaymentForm.paymentMethod st with
     | PaymentForm.card =>
         validatePaymentForm
           {| PaymentForm.pd_cardNumber := PaymentForm.cardNumber st;
              PaymentForm.pd_expiryDate := PaymentForm.expiryDate st;
              PaymentForm.pd_cvv := PaymentForm.cvv st;
              PaymentForm.pd_name := PaymentForm.name st |} = []
     | PaymentForm.paypal => PaymentForm.blank (PaymentForm.emailAddress st) = false
     | PaymentForm.bank =>
         PaymentForm.blank (PaymentForm.bankName st) = false
         /\ PaymentForm.blank (PaymentForm.accountNumber st) = false
         /\ PaymentForm.blank (PaymentForm.routingNumber st) = false
     end.
Proof. apply payment_starts_when. Qed.

(** When the payment starts, the displayed errors are emptied for a card and
    for a bank transfer but left as they were for PayPal; nothing else changes
    but [isProcessing]. *)
Theorem payment_start_errors
  (validatePaymentForm : PaymentForm.PaymentData -> list FormError)
  (isPositiveNumber : string -> bool) (st : PaymentForm.State) :
  In (PaymentForm.SetTimeout 2000)
     (snd (PaymentForm.handleSubmit validatePaymentForm isPositiveNumber st)) ->
  PaymentForm.handleSubmit validatePaymentForm isPositiveNumber st =
  (PaymentForm.setIsProcessing true
     (match PaymentForm.paymentMethod st with
      | PaymentForm.paypal => st
      | _ => PaymentForm.setErrors [] st
      end),
   [PaymentForm.PreventDefault; PaymentForm.SetTimeout 2000]).
Proof.
  intros Hin.
  apply payment_starts_when in Hin. destruct Hin as (Hb & Hp & Hm).
  unfold PaymentForm.handleSubmit. rewrite Hb, Hp. cbn [negb length Nat.ltb Nat.leb].
  cbv zeta. destruct (PaymentForm.paymentMethod st).
  - rewrite Hm. reflexivity.
  - rewrite Hm. reflexivity.
  - destruct Hm as (H1 & H2 & H3). rewrite H1, H2, H3. reflexivity.
Qed.

Lemma payment_start_errors_witness :
  In (PaymentForm.SetTimeout 2000)
     (snd (PaymentForm.handleSubmit samplePaymentValidate samplePositive paypalReady))
  /\ PaymentForm.handleSubmit samplePaymentValidate samplePositive paypalReady =
     (PaymentForm.setIsProcessing true paypalReady,
      [PaymentForm.PreventDefault; PaymentForm.SetTimeout 2000]).
Proof.
  assert (H : In (PaymentForm.SetTimeout 2000)
                (snd (PaymentForm.handleSubmit samplePaymentValidate samplePositive
                        paypalReady))) by (vm_compute; right; left; reflexivity).
  exact (conj H (payment_start_errors samplePaymentValidate samplePositive
                   paypalReady H)).
Defined.

(** With the amount empty, or not a number above 0, the only error displayed
    is the one on the amount: the fields of the method are not looked at, the
    state is otherwise unchanged and no payment starts. *)
Theorem payment_amount_first
  (validatePaymentForm : PaymentForm.PaymentData -> list FormError)
  (isPositiveNumber : string -> bool) (st : PaymentForm.State) :
  PaymentForm.blank (PaymentForm.amount st) = true
  \/ isPositiveNumber (PaymentForm.amount st) = false ->
  PaymentForm.handleSubmit validatePaymentForm isPositiveNumber st =
  (PaymentForm.setErrors
     [if PaymentForm.blank (PaymentForm.amount st)
      then PaymentForm.amountRequired else PaymentForm.amountInvalid] st,
   [PaymentForm.PreventDefault]).
Proof.
  intros H. unfold PaymentForm.handleSubmit.
  destruct (PaymentForm.blank (PaymentForm.amount st)); [reflexivity|].
  destruct H as [H|H]; [discriminate H|]. rewrite H. reflexivity.
Qed.

Lemma payment_amount_first_witness :
  let st := PaymentForm.setAmount "0.00" paypalReady in
  (PaymentForm.blank (PaymentForm.amount st) = true
   \/ samplePositive (PaymentForm.amount st) = false)
  /\ PaymentForm.handleSubmit samplePaymentValidate samplePositive st =
     (PaymentForm.setErrors [PaymentForm.amountInvalid] st,
      [PaymentForm.PreventDefault]).
Proof.
  assert (H : PaymentForm.blank
                (PaymentForm.amount (PaymentForm.setAmount "0.00" paypalReady)) = true
              \/ samplePositive
                   (PaymentForm.amount (PaymentForm.setAmount "0.00" paypalReady))
                 = false) by (right; reflexivity).
  exact (conj H (payment_amount_first samplePaymentValidate samplePositive
                   (PaymentForm.setAmount "0.00" paypalReady) H)).
Defined.

(** ** The page *)

Lemma In_delete {A : Type} (x : A) (n : nat) (l : list A) :
  In x (delete n l) -> In x l.
Proof.
  revert n. induction l as [|a l IH]; intros [|n]; simpl; try tauto.
  intros [H|H]; [now left | right; now apply (IH n)].
Qed.

Lemma runPage_snoc (p : Index.Page) (es : list Index.event) (e : Index.event) :
  Index.runPage p (es ++ [e]) = Index.stepPage (Index.runPage p es) e.
Proof. unfold Index.runPage. now rewrite fold_left_app. Qed.

(** The success step, set or about to be set by a pending timer, hints at a
    payment success among the events; the payment step likewise at an
    application success; and the transition flag is off when no timer is
    pending. *)
Lemma page_invariant (es : list Index.event) :
  let p := Index.runPage Index.initialPage es in
  (Index.step (Index.state p) = Index.success \/ In Index.ToSuccess (Index.pending p) ->
   In Index.PaymentSuccess es)
  /\ (Index.step (Index.state p) = Index.payment \/ In Index.ToPayment (Index.pending p) ->
      In Index.ApplicationSuccess es)
  /\ (Index.pending p = [] -> Index.transition (Index.state p) = false).
Proof.
  induction es as [|e es IH] using rev_ind.
  - cbn. repeat split; try reflexivity; intros [H|H]; try discriminate H; destruct H.
  - cbv zeta in *. rewrite runPage_snoc.
    destruct IH as (IH1 & IH2 & IH3).
    set (p := Index.runPage Index.initialPage es) in *.
    assert (Hl : forall x : Index.event, In x es -> In x (es ++ [e])).
    { intros x Hx. apply in_or_app. now left. }
    assert (Hr : In e (es ++ [e])).
    { apply in_or_app. right. now left. }
    destruct e as [type| | | | |n]; cbn [Index.stepPage].
    1-5: unfold Index.handle; cbn; rewrite !in_app_iff; cbn;
      (repeat split;
       [ intros [H|[H|[H|[]]]]; try discriminate H;
         first [ right; left; reflexivity | left; apply IH1; tauto ]
       | intros [H|[H|[H|[]]]]; try discriminate H;
         first [ right; left; reflexivity | left; apply IH2; tauto ]
       | intros H; apply app_eq_nil in H; destruct H as [_ H]; discriminate H ]).
    destruct (Index.pending p !! n) as [cb|] eqn:Hn.
    + assert (Hcb : In cb (Index.pending p)).
      { apply list_elem_of_In. eapply list_elem_of_lookup_2. exact Hn. }
      cbn [Index.state Index.pending]. repeat split.
      * intros [H|H]; apply Hl, IH1; [|right; now apply (In_delete _ n)].
        destruct cb; cbn in H; try discriminate H; try (left; exact H).
        right. exact Hcb.
      * intros [H|H]; apply Hl, IH2; [|right; now apply (In_delete _ n)].
        destruct cb; cbn in H; try discriminate H; try (left; exact H).
        right. exact Hcb.
      * intros _. destruct cb; reflexivity.
    + repeat split.
      * intros H. apply Hl, IH1, H.
      * intros H. apply Hl, IH2, H.
      * exact IH3.
Qed.

(** The success screen is shown only after the payment form reported a
    success: whatever the clicks and whichever timers fire, in any order. *)
Theorem success_screen_needs_payment (es : list Index.event) :
  Index.render (Index.state (Index.runPage Index.initialPage es)) = Index.SuccessScreen ->
  In Index.PaymentSuccess es.
Proof.
  intros H. apply (proj1 (page_invariant es)). left.
  unfold Index.render in H.
  destruct (Index.step _); [discriminate H | | discriminate H | reflexivity].
  destruct (Index.applicationType _) as [[|]|]; discriminate H.
Qed.

Lemma success_screen_needs_payment_witness :
  let es := [ Index.SelectType Index.participant; Index.Fire 0;
              Index.ApplicationSuccess; Index.Fire 0;
              Index.PaymentSuccess; Index.Fire 0 ] in
  Index.render (Index.state (Index.runPage Index.initialPage es)) = Index.SuccessScreen
  /\ In Index.PaymentSuccess es.
Proof.
  exact (conj eq_refl
           (success_screen_needs_payment
              [ Index.SelectType Index.participant; Index.Fire 0;
                Index.ApplicationSuccess; Index.Fire 0;
                Index.PaymentSuccess; Index.Fire 0 ] eq_refl)).
Defined.

(** The payment form is shown only after an application form reported a
    success. *)
Theorem payment_screen_needs_application (es : list Index.event) :
  Index.render (Index.state (Index.runPage Index.initialPage es)) = Index.PaymentScreen ->
  In Index.ApplicationSuccess es.
Proof.
  intros H. apply (proj1 (proj2 (page_invariant es))). left.
  unfold Index.render in H.
  destruct (Index.step _); [discriminate H | | reflexivity | discriminate H].
  destruct (Index.applicationType _) as [[|]|]; discriminate H.
Qed.

Lemma payment_screen_needs_application_witness :
  let es := [ Index.SelectType Index.director; Index.Fire 0;
              Index.ApplicationSuccess; Index.Fire 0 ] in
  Index.render (Index.state (Index.runPage Index.initialPage es)) = Index.PaymentScreen
  /\ In Index.ApplicationSuccess es.
Proof.
  exact (conj eq_refl
           (payment_screen_needs_application
              [ Index.SelectType Index.director; Index.Fire 0;
                Index.ApplicationSuccess; Index.Fire 0 ] eq_refl)).
Defined.

(** The fade-out always ends: once every timer has fired, the transition
    flag is off. *)
Theorem transition_ends (es : list Index.event) :
  Index.pending (Index.runPage Index.initialPage es) = [] ->
  Index.transition (Index.state (Index.runPage Index.initialPage es)) = false.
Proof. apply (proj2 (proj2 (page_invariant es))). Qed.

Lemma transition_ends_witness :
  let es := [ Index.SelectType Index.participant; Index.BackToSelection;
              Index.Fire 1; Index.Fire 0 ] in
  Index.pending (Index.runPage Index.initialPage es) = []
  /\ Index.transition (Index.state (Index.runPage Index.initialPage es)) = false.
Proof.
  exact (conj eq_refl
           (transition_ends
              [ Index.SelectType Index.participant; Index.BackToSelection;
                Index.Fire 1; Index.Fire 0 ] eq_refl)).
Defined.

(** ** What a checkbox touches *)

Lemma checkboxes_not_sources (f : string) :
  mem f checkboxes = true -> ~ In f effectSources.
Proof.
  intros H Hin. simpl in Hin.
  repeat (destruct Hin as [<-|Hin]; [discriminate H|]). destruct Hin.
Qed.

(** Ticking or clearing an eligibility checkbox stores the flag in its field
    and changes no other field of the record, derived fields included, nor
    the section, the errors or the other flags. *)
Theorem handleCheckboxChange_frame
  (calculateAge : string -> number) (f g : string) (checked : bool) (st : FormState) :
  mem f checkboxes = true ->
  g <> f ->
  let st' := withEffects calculateAge (handleCheckboxChange f checked) st in
  formData st' !! f = Some (VBool checked)
  /\ formData st' !! g = formData st !! g
  /\ currentSection st' = currentSection st
  /\ errors st' = errors st
  /\ agreeTerms st' = agreeTerms st
  /\ isSubmitting st' = isSubmitting st.
Proof.
  intros Hf Hg. cbn -[rerender].
  rewrite rerender_other_field by now apply checkboxes_not_sources.
  rewrite lookup_insert_eq, lookup_insert_ne by congruence. tauto.
Qed.

Lemma handleCheckboxChange_frame_witness :
  let st := stateAt "eligibility" completeRecord true in
  let st' := withEffects sampleCalculateAge (handleCheckboxChange "canTravel" false) st in
  mem "canTravel" checkboxes = true
  /\ "age" <> "canTravel"
  /\ formData st' !! "canTravel" = Some (VBool false)
  /\ formData st' !! "age" = formData st !! "age".
Proof.
  assert (H2 : "age" <> "canTravel") by discriminate.
  destruct (handleCheckboxChange_frame sampleCalculateAge "canTravel" "age" false
              (stateAt "eligibility" completeRecord true) eq_refl H2)
    as (Ha & Hb & _).
  exact (conj eq_refl (conj H2 (conj Ha Hb))).
Defined.
